(** * libcobblersignatures: the [Osversion] model

    A shallow embedding of [libcobblersignatures/models/osversion.py]:
    the sixteen validated properties of an operating-system version,
    its equality, and the [encode] / [decode] pair that moves a record
    to and from a JSON fragment.

    Python values are JSON values: [None], booleans, integers, strings,
    lists and dictionaries with string keys kept in insertion order.
    Floating-point numbers are outside the embedding.  An instance is a
    record of its sixteen private attributes, each holding an arbitrary
    Python value (the language does not type them; the setters do).
    Methods that assign to [self] or raise run in a small state and
    exception monad over the instance. *)

From Stdlib Require Import List String ZArith Bool Lia Permutation.
Import ListNotations.
Open Scope string_scope.

(** ** Python values *)

#[local] Set Warnings "-register-all".

Inductive pyval : Type :=
| PNone
| PBool (b : bool)
| PInt (z : Z)
| PStr (s : string)
| PList (xs : list pyval)
| PDict (d : list (string * pyval)).

(** A dictionary: its items in insertion order, keys pairwise distinct. *)
Definition pydict : Type := list (string * pyval).

(** The classes the setters test with [isinstance]. *)
Inductive pytype : Type := TList | TStr | TBool | TDict.

Definition isinstance (v : pyval) (t : pytype) : bool :=
  match t, v with
  | TList, PList _ => true
  | TStr, PStr _ => true
  | TBool, PBool _ => true
  | TDict, PDict _ => true
  | _, _ => false
  end.

Section Dict.
Context {V : Type}.

(** [d.get(k)], [None] when the key is missing. *)
Fixpoint dict_lookup (k : string) (d : list (string * V)) : option V :=
  match d with
  | [] => None
  | (k', v) :: d' => if String.eqb k k' then Some v else dict_lookup k d'
  end.

(** [d.get(k, default)]. *)
Definition dict_get (d : list (string * V)) (k : string) (default : V) : V :=
  match dict_lookup k d with
  | Some v => v
  | None => default
  end.

(** [d[k] = v]: the value is replaced in place when the key exists,
    otherwise the item is appended. *)
Fixpoint dict_set (k : string) (v : V) (d : list (string * V))
  : list (string * V) :=
  match d with
  | [] => [(k, v)]
  | (k', v') :: d' =>
      if String.eqb k k' then (k, v) :: d' else (k', v') :: dict_set k v d'
  end.

Definition dict_keys (d : list (string * V)) : list string := map fst d.
End Dict.

Definition Z_of_bool (b : bool) : Z := if b then 1%Z else 0%Z.

(** [a == b].  [bool] is a subclass of [int], so [True == 1]; lists
    compare item by item in order; dictionaries compare by size and
    then, for every item of the left one, by the value the right one
    holds under the same key. *)
Fixpoint py_eq (a b : pyval) {struct a} : bool :=
  match a, b with
  | PNone, PNone => true
  | PBool x, PBool y => Bool.eqb x y
  | PBool x, PInt z => Z.eqb (Z_of_bool x) z
  | PInt z, PBool y => Z.eqb z (Z_of_bool y)
  | PInt x, PInt y => Z.eqb x y
  | PStr s, PStr t => String.eqb s t
  | PList xs, PList ys =>
      (fix items (xs ys : list pyval) {struct xs} : bool :=
         match xs, ys with
         | [], [] => true
         | x :: xs', y :: ys' => py_eq x y && items xs' ys'
         | _, _ => false
         end) xs ys
  | PDict d, PDict e =>
      Nat.eqb (List.length d) (List.length e) &&
      (fix items (d : list (string * pyval)) {struct d} : bool :=
         match d with
         | [] => true
         | (k, v) :: d' =>
             match dict_lookup k e with
             | Some w => py_eq v w
             | None => false
             end && items d'
         end) d
  | _, _ => false
  end.

(** The two inner loops of [py_eq], named. *)
Fixpoint list_eq (xs ys : list pyval) : bool :=
  match xs, ys with
  | [], [] => true
  | x :: xs', y :: ys' => py_eq x y && list_eq xs' ys'
  | _, _ => false
  end.

Fixpoint dict_items_eq (d e : pydict) : bool :=
  match d with
  | [] => true
  | (k, v) :: d' =>
      match dict_lookup k e with
      | Some w => py_eq v w
      | None => false
      end && dict_items_eq d' e
  end.

(** ** The instance *)

Record Osversion : Type := mkOsversion {
  _signatures : pyval;
  _version_file : pyval;
  _version_file_regex : pyval;
  _kernel_arch : pyval;
  _kernel_arch_regex : pyval;
  _supported_arches : pyval;
  _supported_repo_breeds : pyval;
  _kernel_file : pyval;
  _initrd_file : pyval;
  _isolinux_ok : pyval;
  _default_autoinstall : pyval;
  _kernel_options : pyval;
  _kernel_options_post : pyval;
  _template_files : pyval;
  _boot_files : pyval;
  _boot_loaders : pyval
}.

(** [Osversion()]: default values for all attributes. *)
Definition __init__ : Osversion := {|
  _signatures := PList [];
  _version_file := PStr "";
  _version_file_regex := PStr "";
  _kernel_arch := PStr "";
  _kernel_arch_regex := PStr "";
  _supported_arches := PList [];
  _supported_repo_breeds := PList [];
  _kernel_file := PStr "";
  _initrd_file := PStr "";
  _isolinux_ok := PBool false;
  _default_autoinstall := PStr "";
  _kernel_options := PStr "";
  _kernel_options_post := PStr "";
  _template_files := PStr "";
  _boot_files := PList [];
  _boot_loaders := PDict []
|}.

(** ** Methods: state and exceptions

    A method body runs on [self] and either returns or raises; in both
    cases it leaves an instance behind, which is what the caller sees
    afterwards. *)

Inductive exn : Type :=
| TypeError (msg : string).

Definition M (A : Type) : Type := Osversion -> (exn + A) * Osversion.

Definition ret {A : Type} (a : A) : M A := fun self => (inr a, self).

Definition raise {A : Type} (e : exn) : M A := fun self => (inl e, self).

Definition bind {A B : Type} (m : M A) (k : A -> M B) : M B :=
  fun self =>
    match m self with
    | (inr a, self') => k a self'
    | (inl e, self') => (inl e, self')
    end.

(** [self._attr = value] for the attribute written by [upd]. *)
Definition assign (upd : pyval -> Osversion -> Osversion) (value : pyval)
  : M unit :=
  fun self => (inr tt, upd value self).

Notation "m1 ;; m2" := (bind m1 (fun _ => m2))
  (at level 61, right associativity).

(** *** Attribute stores *)

Definition store_signatures (value : pyval) (self : Osversion) : Osversion :=
  let '(mkOsversion _ a1 a2 a3 a4 a5 a6 a7 a8 a9 a10 a11 a12 a13 a14 a15) := self in
  mkOsversion value a1 a2 a3 a4 a5 a6 a7 a8 a9 a10 a11 a12 a13 a14 a15.

Definition store_version_file (value : pyval) (self : Osversion) : Osversion :=
  let '(mkOsversion a0 _ a2 a3 a4 a5 a6 a7 a8 a9 a10 a11 a12 a13 a14 a15) := self in
  mkOsversion a0 value a2 a3 a4 a5 a6 a7 a8 a9 a10 a11 a12 a13 a14 a15.

Definition store_version_file_regex (value : pyval) (self : Osversion) : Osversion :=
  let '(mkOsversion a0 a1 _ a3 a4 a5 a6 a7 a8 a9 a10 a11 a12 a13 a14 a15) := self in
  mkOsversion a0 a1 value a3 a4 a5 a6 a7 a8 a9 a10 a11 a12 a13 a14 a15.

Definition store_kernel_arch (value : pyval) (self : Osversion) : Osversion :=
  let '(mkOsversion a0 a1 a2 _ a4 a5 a6 a7 a8 a9 a10 a11 a12 a13 a14 a15) := self in
  mkOsversion a0 a1 a2 value a4 a5 a6 a7 a8 a9 a10 a11 a12 a13 a14 a15.

Definition store_kernel_arch_regex (value : pyval) (self : Osversion) : Osversion :=
  let '(mkOsversion a0 a1 a2 a3 _ a5 a6 a7 a8 a9 a10 a11 a12 a13 a14 a15) := self in
  mkOsversion a0 a1 a2 a3 value a5 a6 a7 a8 a9 a10 a11 a12 a13 a14 a15.

Definition store_supported_arches (value : pyval) (self : Osversion) : Osversion :=
  let '(mkOsversion a0 a1 a2 a3 a4 _ a6 a7 a8 a9 a10 a11 a12 a13 a14 a15) := self in
  mkOsversion a0 a1 a2 a3 a4 value a6 a7 a8 a9 a10 a11 a12 a13 a14 a15.

Definition store_supported_repo_breeds (value : pyval) (self : Osversion) : Osversion :=
  let '(mkOsversion a0 a1 a2 a3 a4 a5 _ a7 a8 a9 a10 a11 a12 a13 a14 a15) := self in
  mkOsversion a0 a1 a2 a3 a4 a5 value a7 a8 a9 a10 a11 a12 a13 a14 a15.

Definition store_kernel_file (value : pyval) (self : Osversion) : Osversion :=
  let '(mkOsversion a0 a1 a2 a3 a4 a5 a6 _ a8 a9 a10 a11 a12 a13 a14 a15) := self in
  mkOsversion a0 a1 a2 a3 a4 a5 a6 value a8 a9 a10 a11 a12 a13 a14 a15.

Definition store_initrd_file (value : pyval) (self : Osversion) : Osversion :=
  let '(mkOsversion a0 a1 a2 a3 a4 a5 a6 a7 _ a9 a10 a11 a12 a13 a14 a15) := self in
  mkOsversion a0 a1 a2 a3 a4 a5 a6 a7 value a9 a10 a11 a12 a13 a14 a15.

Definition store_isolinux_ok (value : pyval) (self : Osversion) : Osversion :=
  let '(mkOsversion a0 a1 a2 a3 a4 a5 a6 a7 a8 _ a10 a11 a12 a13 a14 a15) := self in
  mkOsversion a0 a1 a2 a3 a4 a5 a6 a7 a8 value a10 a11 a12 a13 a14 a15.

Definition store_default_autoinstall (value : pyval) (self : Osversion) : Osversion :=
  let '(mkOsversion a0 a1 a2 a3 a4 a5 a6 a7 a8 a9 _ a11 a12 a13 a14 a15) := self in
  mkOsversion a0 a1 a2 a3 a4 a5 a6 a7 a8 a9 value a11 a12 a13 a14 a15.

Definition store_kernel_options (value : pyval) (self : Osversion) : Osversion :=
  let '(mkOsversion a0 a1 a2 a3 a4 a5 a6 a7 a8 a9 a10 _ a12 a13 a14 a15) := self in
  mkOsversion a0 a1 a2 a3 a4 a5 a6 a7 a8 a9 a10 value a12 a13 a14 a15.

Definition store_kernel_options_post (value : pyval) (self : Osversion) : Osversion :=
  let '(mkOsversion a0 a1 a2 a3 a4 a5 a6 a7 a8 a9 a10 a11 _ a13 a14 a15) := self in
  mkOsversion a0 a1 a2 a3 a4 a5 a6 a7 a8 a9 a10 a11 value a13 a14 a15.

Definition store_template_files (value : pyval) (self : Osversion) : Osversion :=
  let '(mkOsversion a0 a1 a2 a3 a4 a5 a6 a7 a8 a9 a10 a11 a12 _ a14 a15) := self in
  mkOsversion a0 a1 a2 a3 a4 a5 a6 a7 a8 a9 a10 a11 a12 value a14 a15.

Definition store_boot_files (value : pyval) (self : Osversion) : Osversion :=
  let '(mkOsversion a0 a1 a2 a3 a4 a5 a6 a7 a8 a9 a10 a11 a12 a13 _ a15) := self in
  mkOsversion a0 a1 a2 a3 a4 a5 a6 a7 a8 a9 a10 a11 a12 a13 value a15.

Definition store_boot_loaders (value : pyval) (self : Osversion) : Osversion :=
  let '(mkOsversion a0 a1 a2 a3 a4 a5 a6 a7 a8 a9 a10 a11 a12 a13 a14 _) := self in
  mkOsversion a0 a1 a2 a3 a4 a5 a6 a7 a8 a9 a10 a11 a12 a13 a14 value.


(** *** Properties: getter, setter and deleter of each attribute *)

Definition signatures (self : Osversion) : pyval := _signatures self.

Definition signatures_setter (value : pyval) : M unit :=
  if isinstance value TList
  then assign store_signatures value
  else raise (TypeError "Signatures should be a list.").

Definition signatures_deleter : M unit := assign store_signatures (PList []).

Definition version_file (self : Osversion) : pyval := _version_file self.

Definition version_file_setter (value : pyval) : M unit :=
  if isinstance value TStr
  then assign store_version_file value
  else raise (TypeError "The version_file should be a str.").

Definition version_file_deleter : M unit := assign store_version_file (PStr "").

Definition version_file_regex (self : Osversion) : pyval := _version_file_regex self.

Definition version_file_regex_setter (value : pyval) : M unit :=
  if isinstance value TStr
  then assign store_version_file_regex value
  else raise (TypeError "The version_file_regex should be a str.").

Definition version_file_regex_deleter : M unit := assign store_version_file_regex (PStr "").

Definition kernel_arch (self : Osversion) : pyval := _kernel_arch self.

Definition kernel_arch_setter (value : pyval) : M unit :=
  if isinstance value TStr
  then assign store_kernel_arch value
  else raise (TypeError "The kernel_arch should be a str.").

Definition kernel_arch_deleter : M unit := assign store_kernel_arch (PStr "").

Definition kernel_arch_regex (self : Osversion) : pyval := _kernel_arch_regex self.

Definition kernel_arch_regex_setter (value : pyval) : M unit :=
  if isinstance value TStr
  then assign store_kernel_arch_regex value
  else raise (TypeError "The kernel_arch_regex should be a str.").

Definition kernel_arch_regex_deleter : M unit := assign store_kernel_arch_regex (PStr "").

Definition supported_arches (self : Osversion) : pyval := _supported_arches self.

Definition supported_arches_setter (value : pyval) : M unit :=
  if isinstance value TList
  then assign store_supported_arches value
  else raise (TypeError "The supported_arches should be a list.").

Definition supported_arches_deleter : M unit := assign store_supported_arches (PList []).

Definition supported_repo_breeds (self : Osversion) : pyval := _supported_repo_breeds self.

Definition supported_repo_breeds_setter (value : pyval) : M unit :=
  if isinstance value TList
  then assign store_supported_repo_breeds value
  else raise (TypeError "The supported_repo_breeds should be a list.").

Definition supported_repo_breeds_deleter : M unit := assign store_supported_repo_breeds (PList []).

Definition kernel_file (self : Osversion) : pyval := _kernel_file self.

Definition kernel_file_setter (value : pyval) : M unit :=
  if isinstance value TStr
  then assign store_kernel_file value
  else raise (TypeError "The kernel_file should be a str.").

Definition kernel_file_deleter : M unit := assign store_kernel_file (PStr "").

Definition initrd_file (self : Osversion) : pyval := _initrd_file self.

Definition initrd_file_setter (value : pyval) : M unit :=
  if isinstance value TStr
  then assign store_initrd_file value
  else raise (TypeError "The initrd_file should be a str.").

Definition initrd_file_deleter : M unit := assign store_initrd_file (PStr "").

Definition isolinux_ok (self : Osversion) : pyval := _isolinux_ok self.

Definition isolinux_ok_setter (value : pyval) : M unit :=
  if isinstance value TBool
  then assign store_isolinux_ok value
  else raise (TypeError "The isolinux_ok should be a bool.").

Definition isolinux_ok_deleter : M unit := assign store_isolinux_ok (PBool false).

Definition default_autoinstall (self : Osversion) : pyval := _default_autoinstall self.

Definition default_autoinstall_setter (value : pyval) : M unit :=
  if isinstance value TStr
  then assign store_default_autoinstall value
  else raise (TypeError "The default_autoinstall should be a str.").

Definition default_autoinstall_deleter : M unit := assign store_default_autoinstall (PStr "").

Definition kernel_options (self : Osversion) : pyval := _kernel_options self.

Definition kernel_options_setter (value : pyval) : M unit :=
  if isinstance value TStr
  then assign store_kernel_options value
  else raise (TypeError "The kernel_options should be a str.").

Definition kernel_options_deleter : M unit := assign store_kernel_options (PStr "").

Definition kernel_options_post (self : Osversion) : pyval := _kernel_options_post self.

Definition kernel_options_post_setter (value : pyval) : M unit :=
  if isinstance value TStr
  then assign store_kernel_options_post value
  else raise (TypeError "The kernel_options_post should be a str.").

Definition kernel_options_post_deleter : M unit := assign store_kernel_options_post (PStr "").

Definition template_files (self : Osversion) : pyval := _template_files self.

Definition template_files_setter (value : pyval) : M unit :=
  if isinstance value TStr
  then assign store_template_files value
  else raise (TypeError "The template_files should be a str.").

Definition template_files_deleter : M unit := assign store_template_files (PStr "").

Definition boot_files (self : Osversion) : pyval := _boot_files self.

Definition boot_files_setter (value : pyval) : M unit :=
  if isinstance value TList
  then assign store_boot_files value
  else raise (TypeError "The boot_files should be a list.").

Definition boot_files_deleter : M unit := assign store_boot_files (PList []).

Definition boot_loaders (self : Osversion) : pyval := _boot_loaders self.

Definition boot_loaders_setter (value : pyval) : M unit :=
  if isinstance value TDict
  then assign store_boot_loaders value
  else raise (TypeError "The boot_loaders should be a dict.").

Definition boot_loaders_deleter : M unit := assign store_boot_loaders (PDict []).


(** *** Equality

    [other] is an [Osversion] by its type here, so the [NotImplemented]
    branch of the source is not reachable.  The fourteenth comparison
    reads the private attribute of [other], as the source does. *)
Definition __eq__ (self other : Osversion) : bool :=
  py_eq (signatures self) (signatures other)
  && py_eq (version_file self) (version_file other)
  && py_eq (version_file_regex self) (version_file_regex other)
  && py_eq (kernel_arch self) (kernel_arch other)
  && py_eq (kernel_arch_regex self) (kernel_arch_regex other)
  && py_eq (supported_arches self) (supported_arches other)
  && py_eq (supported_repo_breeds self) (supported_repo_breeds other)
  && py_eq (kernel_file self) (kernel_file other)
  && py_eq (initrd_file self) (initrd_file other)
  && py_eq (isolinux_ok self) (isolinux_ok other)
  && py_eq (default_autoinstall self) (default_autoinstall other)
  && py_eq (kernel_options self) (kernel_options other)
  && py_eq (kernel_options_post self) (kernel_options_post other)
  && py_eq (template_files self) (_template_files other)
  && py_eq (boot_files self) (boot_files other)
  && py_eq (boot_loaders self) (boot_loaders other).

(** *** Encoding and decoding *)

Definition encode (self : Osversion) : pydict :=
  [("signatures", signatures self);
    ("version_file", version_file self);
    ("version_file_regex", version_file_regex self);
    ("kernel_arch", kernel_arch self);
    ("kernel_arch_regex", kernel_arch_regex self);
    ("supported_arches", supported_arches self);
    ("supported_repo_breeds", supported_repo_breeds self);
    ("kernel_file", kernel_file self);
    ("initrd_file", initrd_file self);
    ("isolinux_ok", isolinux_ok self);
    ("default_autoinstall", default_autoinstall self);
    ("kernel_options", kernel_options self);
    ("kernel_options_post", kernel_options_post self);
    ("template_files", _template_files self);
    ("boot_files", boot_files self);
    ("boot_loaders", boot_loaders self)
  ].

(** [decode] returns [None] after its last assignment. *)
Definition decode (data : pydict) : M unit :=
  signatures_setter (dict_get data "signatures" (PList [])) ;;
  version_file_setter (dict_get data "version_file" (PStr "")) ;;
  version_file_regex_setter (dict_get data "version_file_regex" (PStr "")) ;;
  kernel_arch_setter (dict_get data "kernel_arch" (PStr "")) ;;
  kernel_arch_regex_setter (dict_get data "kernel_arch_regex" (PStr "")) ;;
  supported_arches_setter (dict_get data "supported_arches" (PList [])) ;;
  supported_repo_breeds_setter (dict_get data "supported_repo_breeds" (PList [])) ;;
  kernel_file_setter (dict_get data "kernel_file" (PList [])) ;;
  initrd_file_setter (dict_get data "initrd_file" (PStr "")) ;;
  isolinux_ok_setter (dict_get data "isolinux_ok" (PBool false)) ;;
  default_autoinstall_setter (dict_get data "default_autoinstall" (PStr "")) ;;
  kernel_options_setter (dict_get data "kernel_options" (PStr "")) ;;
  kernel_options_post_setter (dict_get data "kernel_options_post" (PStr "")) ;;
  template_files_setter (dict_get data "template_files" (PStr "")) ;;
  boot_files_setter (dict_get data "boot_files" (PList [])) ;;
  boot_loaders_setter (dict_get data "boot_loaders" (PDict [])) ;;
  ret tt.

(** ** The sixteen properties, by name

    A property is named by a constructor of [field]; the tables below
    collect, per property, what the class defines for it. *)

Inductive field : Type :=
| F_signatures
| F_version_file
| F_version_file_regex
| F_kernel_arch
| F_kernel_arch_regex
| F_supported_arches
| F_supported_repo_breeds
| F_kernel_file
| F_initrd_file
| F_isolinux_ok
| F_default_autoinstall
| F_kernel_options
| F_kernel_options_post
| F_template_files
| F_boot_files
| F_boot_loaders.

(** The key of the property in a fragment. *)
Definition field_name (f : field) : string :=
  match f with
  | F_signatures => "signatures"
  | F_version_file => "version_file"
  | F_version_file_regex => "version_file_regex"
  | F_kernel_arch => "kernel_arch"
  | F_kernel_arch_regex => "kernel_arch_regex"
  | F_supported_arches => "supported_arches"
  | F_supported_repo_breeds => "supported_repo_breeds"
  | F_kernel_file => "kernel_file"
  | F_initrd_file => "initrd_file"
  | F_isolinux_ok => "isolinux_ok"
  | F_default_autoinstall => "default_autoinstall"
  | F_kernel_options => "kernel_options"
  | F_kernel_options_post => "kernel_options_post"
  | F_template_files => "template_files"
  | F_boot_files => "boot_files"
  | F_boot_loaders => "boot_loaders"
  end.

(** The class its setter tests for. *)
Definition field_type (f : field) : pytype :=
  match f with
  | F_signatures => TList
  | F_version_file => TStr
  | F_version_file_regex => TStr
  | F_kernel_arch => TStr
  | F_kernel_arch_regex => TStr
  | F_supported_arches => TList
  | F_supported_repo_breeds => TList
  | F_kernel_file => TStr
  | F_initrd_file => TStr
  | F_isolinux_ok => TBool
  | F_default_autoinstall => TStr
  | F_kernel_options => TStr
  | F_kernel_options_post => TStr
  | F_template_files => TStr
  | F_boot_files => TList
  | F_boot_loaders => TDict
  end.

(** The value its deleter and [__init__] store. *)
Definition field_default (f : field) : pyval :=
  match f with
  | F_signatures => PList []
  | F_version_file => PStr ""
  | F_version_file_regex => PStr ""
  | F_kernel_arch => PStr ""
  | F_kernel_arch_regex => PStr ""
  | F_supported_arches => PList []
  | F_supported_repo_breeds => PList []
  | F_kernel_file => PStr ""
  | F_initrd_file => PStr ""
  | F_isolinux_ok => PBool false
  | F_default_autoinstall => PStr ""
  | F_kernel_options => PStr ""
  | F_kernel_options_post => PStr ""
  | F_template_files => PStr ""
  | F_boot_files => PList []
  | F_boot_loaders => PDict []
  end.

(** The value [decode] passes to its setter when the key is missing. *)
Definition decode_default (f : field) : pyval :=
  match f with
  | F_signatures => PList []
  | F_version_file => PStr ""
  | F_version_file_regex => PStr ""
  | F_kernel_arch => PStr ""
  | F_kernel_arch_regex => PStr ""
  | F_supported_arches => PList []
  | F_supported_repo_breeds => PList []
  | F_kernel_file => PList []
  | F_initrd_file => PStr ""
  | F_isolinux_ok => PBool false
  | F_default_autoinstall => PStr ""
  | F_kernel_options => PStr ""
  | F_kernel_options_post => PStr ""
  | F_template_files => PStr ""
  | F_boot_files => PList []
  | F_boot_loaders => PDict []
  end.

(** The message of the [TypeError] its setter raises. *)
Definition field_message (f : field) : string :=
  match f with
  | F_signatures => "Signatures should be a list."
  | F_version_file => "The version_file should be a str."
  | F_version_file_regex => "The version_file_regex should be a str."
  | F_kernel_arch => "The kernel_arch should be a str."
  | F_kernel_arch_regex => "The kernel_arch_regex should be a str."
  | F_supported_arches => "The supported_arches should be a list."
  | F_supported_repo_breeds => "The supported_repo_breeds should be a list."
  | F_kernel_file => "The kernel_file should be a str."
  | F_initrd_file => "The initrd_file should be a str."
  | F_isolinux_ok => "The isolinux_ok should be a bool."
  | F_default_autoinstall => "The default_autoinstall should be a str."
  | F_kernel_options => "The kernel_options should be a str."
  | F_kernel_options_post => "The kernel_options_post should be a str."
  | F_template_files => "The template_files should be a str."
  | F_boot_files => "The boot_files should be a list."
  | F_boot_loaders => "The boot_loaders should be a dict."
  end.

(** Its getter. *)
Definition getter (f : field) : Osversion -> pyval :=
  match f with
  | F_signatures => signatures
  | F_version_file => version_file
  | F_version_file_regex => version_file_regex
  | F_kernel_arch => kernel_arch
  | F_kernel_arch_regex => kernel_arch_regex
  | F_supported_arches => supported_arches
  | F_supported_repo_breeds => supported_repo_breeds
  | F_kernel_file => kernel_file
  | F_initrd_file => initrd_file
  | F_isolinux_ok => isolinux_ok
  | F_default_autoinstall => default_autoinstall
  | F_kernel_options => kernel_options
  | F_kernel_options_post => kernel_options_post
  | F_template_files => template_files
  | F_boot_files => boot_files
  | F_boot_loaders => boot_loaders
  end.

(** Its setter. *)
Definition setter (f : field) : pyval -> M unit :=
  match f with
  | F_signatures => signatures_setter
  | F_version_file => version_file_setter
  | F_version_file_regex => version_file_regex_setter
  | F_kernel_arch => kernel_arch_setter
  | F_kernel_arch_regex => kernel_arch_regex_setter
  | F_supported_arches => supported_arches_setter
  | F_supported_repo_breeds => supported_repo_breeds_setter
  | F_kernel_file => kernel_file_setter
  | F_initrd_file => initrd_file_setter
  | F_isolinux_ok => isolinux_ok_setter
  | F_default_autoinstall => default_autoinstall_setter
  | F_kernel_options => kernel_options_setter
  | F_kernel_options_post => kernel_options_post_setter
  | F_template_files => template_files_setter
  | F_boot_files => boot_files_setter
  | F_boot_loaders => boot_loaders_setter
  end.

(** Its deleter. *)
Definition deleter (f : field) : M unit :=
  match f with
  | F_signatures => signatures_deleter
  | F_version_file => version_file_deleter
  | F_version_file_regex => version_file_regex_deleter
  | F_kernel_arch => kernel_arch_deleter
  | F_kernel_arch_regex => kernel_arch_regex_deleter
  | F_supported_arches => supported_arches_deleter
  | F_supported_repo_breeds => supported_repo_breeds_deleter
  | F_kernel_file => kernel_file_deleter
  | F_initrd_file => initrd_file_deleter
  | F_isolinux_ok => isolinux_ok_deleter
  | F_default_autoinstall => default_autoinstall_deleter
  | F_kernel_options => kernel_options_deleter
  | F_kernel_options_post => kernel_options_post_deleter
  | F_template_files => template_files_deleter
  | F_boot_files => boot_files_deleter
  | F_boot_loaders => boot_loaders_deleter
  end.

(** The assignment to its private attribute. *)
Definition store (f : field) : pyval -> Osversion -> Osversion :=
  match f with
  | F_signatures => store_signatures
  | F_version_file => store_version_file
  | F_version_file_regex => store_version_file_regex
  | F_kernel_arch => store_kernel_arch
  | F_kernel_arch_regex => store_kernel_arch_regex
  | F_supported_arches => store_supported_arches
  | F_supported_repo_breeds => store_supported_repo_breeds
  | F_kernel_file => store_kernel_file
  | F_initrd_file => store_initrd_file
  | F_isolinux_ok => store_isolinux_ok
  | F_default_autoinstall => store_default_autoinstall
  | F_kernel_options => store_kernel_options
  | F_kernel_options_post => store_kernel_options_post
  | F_template_files => store_template_files
  | F_boot_files => store_boot_files
  | F_boot_loaders => store_boot_loaders
  end.

(** Its position in the assignment order of [decode]. *)
Definition field_index (f : field) : nat :=
  match f with
  | F_signatures => 0
  | F_version_file => 1
  | F_version_file_regex => 2
  | F_kernel_arch => 3
  | F_kernel_arch_regex => 4
  | F_supported_arches => 5
  | F_supported_repo_breeds => 6
  | F_kernel_file => 7
  | F_initrd_file => 8
  | F_isolinux_ok => 9
  | F_default_autoinstall => 10
  | F_kernel_options => 11
  | F_kernel_options_post => 12
  | F_template_files => 13
  | F_boot_files => 14
  | F_boot_loaders => 15
  end.

(** The order in which [decode] assigns. *)
Definition decode_order : list field :=
  [ F_signatures;
    F_version_file;
    F_version_file_regex;
    F_kernel_arch;
    F_kernel_arch_regex;
    F_supported_arches;
    F_supported_repo_breeds;
    F_kernel_file;
    F_initrd_file;
    F_isolinux_ok;
    F_default_autoinstall;
    F_kernel_options;
    F_kernel_options_post;
    F_template_files;
    F_boot_files;
    F_boot_loaders ].

Definition field_names : list string := map field_name decode_order.


(** The value [decode] hands to the setter of [f]. *)
Definition decode_arg (data : pydict) (f : field) : pyval :=
  dict_get data (field_name f) (decode_default f).

(** [decode], one setter call per entry of a list of properties. *)
Fixpoint assign_all (data : pydict) (fs : list field) : M unit :=
  match fs with
  | [] => ret tt
  | f :: fs' => setter f (decode_arg data f) ;; assign_all data fs'
  end.

(** Whether a key names one of the sixteen properties. *)
Definition is_field_name (k : string) : bool :=
  existsb (String.eqb k) field_names.

(** A version as the signature files describe one. *)
Definition leap_15_2 : Osversion := {|
  _signatures := PList [PStr "boot"; PStr "suse"];
  _version_file := PStr "openSUSE-release-15.2";
  _version_file_regex := PStr "openSUSE Leap 15.2";
  _kernel_arch := PStr "kernel-default";
  _kernel_arch_regex := PStr "x86_64";
  _supported_arches := PList [PStr "i386"; PStr "x86_64"];
  _supported_repo_breeds := PList [PStr "yum"];
  _kernel_file := PStr "linux";
  _initrd_file := PStr "initrd";
  _isolinux_ok := PBool true;
  _default_autoinstall := PStr "sample_autoyast.xml";
  _kernel_options := PStr "install=$tree";
  _kernel_options_post := PStr "";
  _template_files := PStr "";
  _boot_files := PList [];
  _boot_loaders :=
    PDict [("x86_64", PList [PStr "grub"; PStr "pxe"]);
           ("ppc64", PList [PStr "grub"])]
|}.

(** ** Representation invariants *)

Fixpoint distinct (ks : list string) : bool :=
  match ks with
  | [] => true
  | k :: ks' => negb (existsb (String.eqb k) ks') && distinct ks'
  end.

(** A value stands for a Python object when every dictionary in it has
    pairwise distinct keys. *)
Fixpoint wf_val (v : pyval) : bool :=
  match v with
  | PList xs => forallb wf_val xs
  | PDict d =>
      distinct (dict_keys d) &&
      forallb (fun kv => let '(_, w) := kv in wf_val w) d
  | _ => true
  end.

(** What the setters maintain: each attribute holds an object of the
    class its setter tests for. *)
Definition typed (self : Osversion) : bool :=
  forallb (fun f => isinstance (getter f self) (field_type f)) decode_order.

Definition wf (self : Osversion) : bool :=
  forallb (fun f => wf_val (getter f self)) decode_order.

(** The type the specification gives the four sequence properties:
    a sequence all of whose items are strings. *)
Definition seq_of_string (v : pyval) : bool :=
  match v with
  | PList xs => forallb (fun x => isinstance x TStr) xs
  | _ => false
  end.

(** The type the specification declares for a property: a sequence of
    strings for the four sequence properties, and for the others the
    class their setter tests for (string, boolean, mapping). *)
Definition has_declared_type (f : field) (v : pyval) : bool :=
  match field_type f with
  | TList => seq_of_string v
  | t => isinstance v t
  end.

(** ** Compositions and enumerations used by the further properties *)

(** The deleters of a list of properties, one after the other. *)
Fixpoint delete_all (fs : list field) : M unit :=
  match fs with
  | [] => ret tt
  | f :: fs' => deleter f ;; delete_all fs'
  end.

(** The architectures available in Cobbler, with the value each member
    is declared with. *)
Inductive OsArchitectures : Type := i386 | x86_64 | ppc | ppc64 | amd64.

Definition OsArchitectures_value (a : OsArchitectures) : Z :=
  match a with
  | i386 => 1
  | x86_64 => 2
  | ppc => 3
  | ppc64 => 4
  | amd64 => 5
  end%Z.

(** The repository breeds available in Cobbler. *)
Inductive RepositoryBreeds : Type := rsync | rhn | yum | apt.

Definition RepositoryBreeds_value (b : RepositoryBreeds) : Z :=
  match b with
  | rsync => 1
  | rhn => 2
  | yum => 3
  | apt => 4
  end%Z.

(** A call of one of the methods that change an instance. *)
Inductive method_call : Type :=
| CallSetter (f : field) (value : pyval)
| CallDeleter (f : field)
| CallDecode (data : pydict).

Definition run_call (c : method_call) : M unit :=
  match c with
  | CallSetter f value => setter f value
  | CallDeleter f => deleter f
  | CallDecode data => decode data
  end.

(** The instance left by a series of calls, each made whether or not
    the one before raised (the caller catching the exception). *)
Fixpoint after_calls (cs : list method_call) (self : Osversion) : Osversion :=
  match cs with
  | [] => self
  | c :: cs' => after_calls cs' (snd (run_call c self))
  end.

(** ** The command line: helpers that fill the menus

    From [libcobblersignatures/cli.py].  The catalogue [os_signatures]
    and its breeds are objects of classes defined elsewhere; the
    helpers only read the list [osbreeds], the [name] of a breed, the
    keys of its [osversions] and the answer of [==] between the chosen
    entry and a breed, which are parameters here.  What [print] writes
    is collected as a list of lines. *)

Inductive cli_exn : Type :=
| IndexError
| AttributeError.

(** What is handed over as the choices of a menu: a list, or the keys
    view of a dictionary (which has a length but no [append]). *)
Inductive choices : Type :=
| ChoiceList (xs : list pyval)
| ChoiceKeys (ks : list string).

Definition choices_len (c : choices) : nat :=
  match c with
  | ChoiceList xs => List.length xs
  | ChoiceKeys ks => List.length ks
  end.

(** [l[i]] for a non-negative or negative index; [None] stands for the
    [IndexError] of an index out of range. *)
Definition list_getitem {A : Type} (l : list A) (i : Z) : option A :=
  let n := Z.of_nat (List.length l) in
  if (0 <=? i)%Z then nth_error l (Z.to_nat i)
  else if (- n <=? i)%Z then nth_error l (Z.to_nat (n + i))
  else None.

(** [update_choices(question, values)].  Besides the outcome, the
    result gives the list [question] and the object the caller passed
    as [values] as they are after the call: an empty [values] is
    replaced by a new list inside the function, a non-empty one is
    appended to in place. *)
Definition update_choices (question : list pydict) (values : choices)
  : (cli_exn + unit) * (list pydict * choices) :=
  let fresh := Nat.eqb (choices_len values) 0 in
  let local := if fresh then ChoiceList [] else values in
  match local with
  | ChoiceKeys _ => (inl AttributeError, (question, values))
  | ChoiceList xs =>
      let xs' := (xs ++ [PStr "Go Back"])%list in
      let passed := if fresh then values else ChoiceList xs' in
      match question with
      | [] => (inl IndexError, (question, passed))
      | q :: rest =>
          (inr tt, (dict_set "choices" (PList xs') q :: rest, passed))
      end
  end.

Section Catalogue.
Context {Osbreed : Type}.
Variable name : Osbreed -> pyval.
Variable osversions_keys : Osbreed -> list string.
Variable breed_eq : pyval -> Osbreed -> bool.

Definition get_os_breed_names (osbreeds : list Osbreed) : list pyval :=
  (fix loop (vs : list Osbreed) (names : list pyval) : list pyval :=
     match vs with
     | [] => names
     | v :: vs' => loop vs' (names ++ [name v])%list
     end) osbreeds [].

(** The loop of [get_os_version_names] over the indices still to try,
    with the lines printed so far. *)
Fixpoint version_names_loop (osbreeds : list Osbreed) (breed : pyval)
    (indices : list Z) (printed : list string)
  : (cli_exn + choices) * list string :=
  match indices with
  | [] => (inr (ChoiceList []), printed)
  | index :: indices' =>
      match list_getitem osbreeds index with
      | None => (inl IndexError, printed)
      | Some b =>
          if breed_eq breed b
          then (inr (ChoiceKeys (osversions_keys b)), printed)
          else version_names_loop osbreeds breed indices'
                 (printed ++ ["Operating System Breed not found. Doing nothing."])%list
      end
  end.

Definition get_os_version_names (osbreeds : list Osbreed) (breed : pyval)
  : (cli_exn + choices) * list string :=
  version_names_loop osbreeds breed
    [0%Z; (Z.of_nat (List.length osbreeds) - 1)%Z] [].
End Catalogue.

(** * Properties *)

(** ** Induction over values *)

Section PyvalInd.
Variable P : pyval -> Prop.
Hypothesis HNone : P PNone.
Hypothesis HBool : forall b, P (PBool b).
Hypothesis HInt : forall z, P (PInt z).
Hypothesis HStr : forall s, P (PStr s).
Hypothesis HList : forall xs, Forall P xs -> P (PList xs).
Hypothesis HDict : forall d, Forall (fun kv => P (snd kv)) d -> P (PDict d).

Fixpoint pyval_nested_ind (v : pyval) : P v :=
  match v with
  | PNone => HNone
  | PBool b => HBool b
  | PInt z => HInt z
  | PStr s => HStr s
  | PList xs =>
      HList xs
        ((fix all (l : list pyval) : Forall P l :=
            match l with
            | [] => Forall_nil _
            | x :: l' => Forall_cons x (pyval_nested_ind x) (all l')
            end) xs)
  | PDict d =>
      HDict d
        ((fix all (l : list (string * pyval))
            : Forall (fun kv => P (snd kv)) l :=
            match l with
            | [] => Forall_nil _
            | (k, w) :: l' =>
                Forall_cons (k, w) (pyval_nested_ind w) (all l')
            end) d)
  end.
End PyvalInd.

(** ** Dictionaries *)

Lemma dict_lookup_set_other {V : Type} (k k' : string) (v : V) d :
  k' <> k -> dict_lookup k' (dict_set k v d) = dict_lookup k' d.
Proof.
  intros Hne. induction d as [|[k0 v0] d IH]; simpl.
  - destruct (String.eqb_spec k' k); congruence.
  - destruct (String.eqb_spec k k0) as [->|Hk]; simpl.
    + destruct (String.eqb_spec k' k0); congruence.
    + rewrite IH. reflexivity.
Qed.

Lemma dict_lookup_set_same {V : Type} (k : string) (v : V) d :
  dict_lookup k (dict_set k v d) = Some v.
Proof.
  induction d as [|[k0 v0] d IH]; simpl.
  - now rewrite String.eqb_refl.
  - destruct (String.eqb_spec k k0) as [->|Hk]; simpl.
    + now rewrite String.eqb_refl.
    + destruct (String.eqb_spec k k0); [contradiction | exact IH].
Qed.

Lemma dict_lookup_none {V : Type} (k : string) (d : list (string * V)) :
  dict_lookup k d = None <-> ~ In k (dict_keys d).
Proof.
  induction d as [|[k0 v0] d IH]; simpl.
  - tauto.
  - destruct (String.eqb_spec k k0) as [->|Hk].
    + split; [discriminate | intros H; exfalso; apply H; now left].
    + rewrite IH. split; intros H; [intros [E|E]; congruence | tauto].
Qed.

Lemma distinct_NoDup ks : distinct ks = true <-> NoDup ks.
Proof.
  induction ks as [|k ks IH]; simpl.
  - split; [constructor | reflexivity].
  - rewrite andb_true_iff, negb_true_iff, IH. split.
    + intros [Hk Hn]. constructor; [|exact Hn].
      intros Hin. assert (existsb (String.eqb k) ks = true) as E.
      { apply existsb_exists. exists k. split; [exact Hin | apply String.eqb_refl]. }
      congruence.
    + intros Hn. inversion Hn as [|? ? Hk Hn']; subst. split; [|exact Hn'].
      destruct (existsb (String.eqb k) ks) eqn:E; [|reflexivity].
      apply existsb_exists in E. destruct E as [k' [Hin Hk']].
      apply String.eqb_eq in Hk'. subst k'. contradiction.
Qed.

Lemma dict_lookup_in {V : Type} (k : string) (v : V) d :
  NoDup (dict_keys d) -> In (k, v) d -> dict_lookup k d = Some v.
Proof.
  induction d as [|[k0 v0] d IH]; simpl; [tauto|].
  intros Hn Hin. inversion Hn as [|? ? Hk Hn']; subst.
  destruct Hin as [E|Hin].
  - inversion E; subst. now rewrite String.eqb_refl.
  - destruct (String.eqb_spec k k0) as [->|_].
    + exfalso. apply Hk. unfold dict_keys. change k0 with (fst (k0, v)).
      now apply in_map.
    + now apply IH.
Qed.

Lemma dict_lookup_some_in {V : Type} (k : string) (v : V) d :
  dict_lookup k d = Some v -> In (k, v) d.
Proof.
  induction d as [|[k0 v0] d IH]; simpl; [discriminate|].
  destruct (String.eqb_spec k k0) as [->|_].
  - intros E; inversion E; now left.
  - intros E; right; now apply IH.
Qed.

(** Lookup depends on the items only, not on their order. *)
Lemma dict_lookup_perm {V : Type} (k : string) (d d' : list (string * V)) :
  NoDup (dict_keys d) -> Permutation d d' ->
  dict_lookup k d = dict_lookup k d'.
Proof.
  intros Hn Hp.
  assert (NoDup (dict_keys d')) as Hn'.
  { eapply Permutation_NoDup; [|exact Hn]. now apply Permutation_map. }
  destruct (dict_lookup k d) as [v|] eqn:E.
  - symmetry. apply dict_lookup_in; [exact Hn'|].
    eapply Permutation_in; [exact Hp|]. now apply dict_lookup_some_in.
  - symmetry. apply dict_lookup_none. apply dict_lookup_none in E.
    intros Hin. apply E. eapply Permutation_in; [|exact Hin].
    apply Permutation_sym. now apply Permutation_map.
Qed.

(** ** Equality of values *)

Lemma py_eq_list xs ys : py_eq (PList xs) (PList ys) = list_eq xs ys.
Proof.
  reflexivity.
Qed.

Lemma py_eq_dict d e :
  py_eq (PDict d) (PDict e) =
  Nat.eqb (List.length d) (List.length e) && dict_items_eq d e.
Proof.
  simpl. f_equal. induction d as [|[k v] d IH]; [reflexivity|].
  simpl. f_equal. apply IH.
Qed.

Lemma list_eq_Forall2 xs ys :
  list_eq xs ys = true <-> Forall2 (fun x y => py_eq x y = true) xs ys.
Proof.
  revert ys. induction xs as [|x xs IH]; intros [|y ys]; simpl.
  - split; [constructor | reflexivity].
  - split; [discriminate | intros H; inversion H].
  - split; [discriminate | intros H; inversion H].
  - rewrite andb_true_iff, IH. split.
    + intros [H1 H2]. now constructor.
    + intros H. inversion H; subst. now split.
Qed.

Lemma dict_items_eq_spec d e :
  dict_items_eq d e = true <->
  forall k v, In (k, v) d ->
    exists w, dict_lookup k e = Some w /\ py_eq v w = true.
Proof.
  induction d as [|[k0 v0] d IH]; simpl.
  - split; [intros _ k v [] | reflexivity].
  - rewrite andb_true_iff, IH. split.
    + intros [H0 H] k v [E|Hin].
      * inversion E; subst. destruct (dict_lookup k e) as [w|]; [|discriminate].
        now exists w.
      * now apply H.
    + intros H. split.
      * destruct (H k0 v0 (or_introl eq_refl)) as [w [-> Hw]]. exact Hw.
      * intros k v Hin. apply H. now right.
Qed.

(** On objects, [==] is reflexive. *)
Lemma py_eq_refl v : wf_val v = true -> py_eq v v = true.
Proof.
  induction v as [| b | z | s | xs IH | d IH] using pyval_nested_ind;
    intros Hwf.
  - reflexivity.
  - apply Bool.eqb_reflx.
  - apply Z.eqb_refl.
  - apply String.eqb_refl.
  - change (list_eq xs xs = true). change (forallb wf_val xs = true) in Hwf.
    induction IH as [|x xs Hx _ IHxs]; [reflexivity|].
    change (wf_val x && forallb wf_val xs = true) in Hwf.
    change (py_eq x x && list_eq xs xs = true).
    apply andb_true_iff in Hwf. destruct Hwf as [H1 H2].
    apply andb_true_iff. split; [exact (Hx H1) | exact (IHxs H2)].
  - rewrite py_eq_dict, Nat.eqb_refl. simpl andb.
    change (distinct (dict_keys d) &&
            forallb (fun kv => let '(_, w) := kv in wf_val w) d = true) in Hwf.
    apply andb_true_iff in Hwf. destruct Hwf as [Hd Hw].
    apply distinct_NoDup in Hd. rewrite forallb_forall in Hw.
    rewrite Forall_forall in IH.
    apply dict_items_eq_spec. intros k v Hin. exists v. split.
    + now apply dict_lookup_in.
    + apply (IH (k, v) Hin). exact (Hw (k, v) Hin).
Qed.

(** Comparing dictionaries ignores the insertion order on both sides. *)
Lemma py_eq_dict_perm_l d d' e :
  Permutation d d' -> py_eq (PDict d) (PDict e) = py_eq (PDict d') (PDict e).
Proof.
  intros Hp. rewrite !py_eq_dict. rewrite (Permutation_length Hp). f_equal.
  apply Bool.eq_true_iff_eq. rewrite !dict_items_eq_spec.
  split; intros H k v Hin; apply H.
  - eapply Permutation_in; [apply Permutation_sym; exact Hp | exact Hin].
  - eapply Permutation_in; [exact Hp | exact Hin].
Qed.

Lemma py_eq_dict_perm_r d d' e :
  NoDup (dict_keys d) -> Permutation d d' ->
  py_eq (PDict e) (PDict d) = py_eq (PDict e) (PDict d').
Proof.
  intros Hn Hp. rewrite !py_eq_dict. rewrite (Permutation_length Hp). f_equal.
  induction e as [|[k v] e IH]; [reflexivity|].
  simpl. rewrite IH, (dict_lookup_perm k d d' Hn Hp). reflexivity.
Qed.

(** ** Properties of the record *)

Lemma field_eq_dec (f g : field) : {f = g} + {f <> g}.
Proof. decide equality. Defined.

Lemma getter_store_same f v self : getter f (store f v self) = v.
Proof. destruct f, self; reflexivity. Qed.

Lemma getter_store_other f g v self :
  g <> f -> getter g (store f v self) = getter g self.
Proof.
  intros Hne. destruct self.
  destruct f, g; solve [reflexivity | exfalso; apply Hne; reflexivity].
Qed.

(** An instance is determined by what its sixteen getters return. *)
Lemma getter_ext (a b : Osversion) :
  (forall f, getter f a = getter f b) -> a = b.
Proof.
  intros H.
  generalize (H F_signatures) (H F_version_file) (H F_version_file_regex)
    (H F_kernel_arch) (H F_kernel_arch_regex) (H F_supported_arches)
    (H F_supported_repo_breeds) (H F_kernel_file) (H F_initrd_file)
    (H F_isolinux_ok) (H F_default_autoinstall) (H F_kernel_options)
    (H F_kernel_options_post) (H F_template_files) (H F_boot_files)
    (H F_boot_loaders).
  clear H. destruct a, b. simpl. intros. subst. reflexivity.
Qed.

Lemma in_decode_order f : In f decode_order.
Proof. destruct f; simpl; tauto. Qed.

Lemma field_index_inj f g : field_index f = field_index g -> f = g.
Proof. destruct f, g; simpl; intros E; solve [reflexivity | discriminate E]. Qed.

Lemma field_name_inj f g : field_name f = field_name g -> f = g.
Proof. destruct f, g; simpl; intros E; solve [reflexivity | discriminate E]. Qed.

(** What a setter does, by the class of the value. *)
Lemma setter_spec f v self :
  setter f v self =
  if isinstance v (field_type f)
  then (inr tt, store f v self)
  else (inl (TypeError (field_message f)), self).
Proof. destruct f, v; reflexivity. Qed.

Lemma deleter_spec f self :
  deleter f self = (inr tt, store f (field_default f) self).
Proof. destruct f; reflexivity. Qed.

Lemma decode_assign_all data : decode data = assign_all data decode_order.
Proof. reflexivity. Qed.

(** ** Runs of [decode] *)

Section Runs.
Variable data : pydict.

Local Abbreviation arg := (decode_arg data).

(** Every setter accepts: all listed properties are assigned. *)
Lemma assign_all_ok fs : forall self,
  (forall g, In g fs -> isinstance (arg g) (field_type g) = true) ->
  exists self',
    assign_all data fs self = (inr tt, self') /\
    (forall g, In g fs -> getter g self' = arg g) /\
    (forall g, ~ In g fs -> getter g self' = getter g self).
Proof.
  induction fs as [|h fs IH]; intros self Hty.
  - exists self. simpl. repeat split; tauto.
  - simpl. unfold bind. rewrite setter_spec.
    rewrite (Hty h (or_introl eq_refl)).
    destruct (IH (store h (arg h) self)) as [self' [Hrun [Hin Hout]]].
    { intros g Hg. apply Hty. now right. }
    exists self'. split; [exact Hrun|]. split.
    + intros g [->|Hg]; [|now apply Hin].
      destruct (in_dec field_eq_dec g fs) as [Hg|Hg]; [now apply Hin|].
      rewrite (Hout g Hg). apply getter_store_same.
    + intros g Hg. rewrite Hout by tauto.
      apply getter_store_other. intros ->. apply Hg. now left.
Qed.

(** The first setter that refuses stops the run: what came before is
    assigned, the rest is as it was. *)
Lemma assign_all_raises before f after : forall self,
  (forall g, In g before -> isinstance (arg g) (field_type g) = true) ->
  isinstance (arg f) (field_type f) = false ->
  exists self',
    assign_all data (before ++ f :: after)%list self =
      (inl (TypeError (field_message f)), self') /\
    (forall g, In g before -> getter g self' = arg g) /\
    (forall g, ~ In g before -> getter g self' = getter g self).
Proof.
  induction before as [|h before IH]; intros self Hty Hf.
  - exists self. simpl. unfold bind. rewrite setter_spec.
    rewrite Hf. repeat split; tauto.
  - simpl. unfold bind. rewrite setter_spec.
    rewrite (Hty h (or_introl eq_refl)).
    destruct (IH (store h (arg h) self)) as [self' [Hrun [Hin Hout]]].
    { intros g Hg. apply Hty. now right. }
    { exact Hf. }
    exists self'. split; [exact Hrun|]. split.
    + intros g [->|Hg]; [|now apply Hin].
      destruct (in_dec field_eq_dec g before) as [Hg|Hg]; [now apply Hin|].
      rewrite (Hout g Hg). apply getter_store_same.
    + intros g Hg. rewrite Hout by tauto.
      apply getter_store_other. intros ->. apply Hg. now left.
Qed.
End Runs.

(** ** The invariant the setters keep *)

Lemma typed_init : typed __init__ = true.
Proof. reflexivity. Qed.

Lemma typed_getter self f :
  typed self = true -> isinstance (getter f self) (field_type f) = true.
Proof.
  unfold typed. rewrite forallb_forall. intros H. apply H, in_decode_order.
Qed.

Lemma wf_getter self f : wf self = true -> wf_val (getter f self) = true.
Proof.
  unfold wf. rewrite forallb_forall. intros H. apply H, in_decode_order.
Qed.

(** Whether it returns or raises, a setter leaves a typed instance. *)
Lemma setter_keeps_typed f v self res self' :
  typed self = true -> setter f v self = (res, self') -> typed self' = true.
Proof.
  intros Hty. rewrite setter_spec.
  destruct (isinstance v (field_type f)) eqn:Hv; intros E; inversion E; subst.
  - unfold typed. apply forallb_forall. intros g _.
    destruct (field_eq_dec g f) as [->|Hne].
    + now rewrite getter_store_same.
    + rewrite getter_store_other by exact Hne. now apply typed_getter.
  - exact Hty.
Qed.

Lemma deleter_keeps_typed f self res self' :
  typed self = true -> deleter f self = (res, self') -> typed self' = true.
Proof.
  intros Hty. rewrite deleter_spec. intros E; inversion E; subst.
  unfold typed. apply forallb_forall. intros g _.
  destruct (field_eq_dec g f) as [->|Hne].
  - rewrite getter_store_same. now destruct f.
  - rewrite getter_store_other by exact Hne. now apply typed_getter.
Qed.

(** ** Equality of records *)

Ltac by_field H :=
  first [ exact (H F_signatures) | exact (H F_version_file)
        | exact (H F_version_file_regex) | exact (H F_kernel_arch)
        | exact (H F_kernel_arch_regex) | exact (H F_supported_arches)
        | exact (H F_supported_repo_breeds) | exact (H F_kernel_file)
        | exact (H F_initrd_file) | exact (H F_isolinux_ok)
        | exact (H F_default_autoinstall) | exact (H F_kernel_options)
        | exact (H F_kernel_options_post) | exact (H F_template_files)
        | exact (H F_boot_files) | exact (H F_boot_loaders) ].

Lemma eq_fields self other :
  __eq__ self other = true <->
  forall f, py_eq (getter f self) (getter f other) = true.
Proof.
  unfold __eq__. rewrite !andb_true_iff. split.
  - intros H f. decompose [and] H. destruct f; assumption.
  - intros H. repeat apply conj; by_field H.
Qed.

Lemma eq_refl_wf self : wf self = true -> __eq__ self self = true.
Proof.
  intros Hwf. apply eq_fields. intros f. apply py_eq_refl. now apply wf_getter.
Qed.

Lemma decode_arg_encode self f : decode_arg (encode self) f = getter f self.
Proof. destruct f; reflexivity. Qed.

Lemma is_field_name_false k f : is_field_name k = false -> field_name f <> k.
Proof.
  unfold is_field_name. intros H E. subst k.
  assert (existsb (String.eqb (field_name f)) field_names = true) as C.
  { apply existsb_exists. exists (field_name f).
    split; [apply in_map, in_decode_order | apply String.eqb_refl]. }
  congruence.
Qed.

Lemma decode_order_split f :
  decode_order =
  (firstn (field_index f) decode_order ++
   f :: skipn (S (field_index f)) decode_order)%list.
Proof. destruct f; reflexivity. Qed.

Lemma in_firstn_decode_order f g :
  In g (firstn (field_index f) decode_order) <-> field_index g < field_index f.
Proof.
  destruct f, g; simpl; split; intros H;
    solve [ lia
          | repeat match type of H with
                   | _ \/ _ => destruct H as [H|H]; [discriminate H|]
                   end; contradiction
          | repeat first [left; reflexivity | right] ].
Qed.

(** ** Outcomes of [decode] *)

(** When every setter accepts what it is handed, [decode] returns and
    each property holds the fragment's value, or the default [decode]
    passes for it. *)
Lemma decode_ok data self :
  (forall g, isinstance (decode_arg data g) (field_type g) = true) ->
  exists self',
    decode data self = (inr tt, self') /\
    (forall g, getter g self' = decode_arg data g).
Proof.
  intros Hty. rewrite decode_assign_all.
  destruct (assign_all_ok data decode_order self) as [self' [Hrun [Hin _]]].
  { intros g _. apply Hty. }
  exists self'. split; [exact Hrun|].
  intros g. apply Hin, in_decode_order.
Qed.

(** A fragment without the key [kernel_file] is never decoded to the
    end: some setter, [kernel_file]'s at the latest, raises. *)
Lemma assign_all_without_kernel_file data before after :
  dict_lookup "kernel_file" data = None ->
  forall self self',
    assign_all data (before ++ F_kernel_file :: after)%list self <>
    (inr tt, self').
Proof.
  intros Hk. induction before as [|h before IH]; intros self self';
    cbn [assign_all app]; unfold bind.
  - rewrite setter_spec. unfold decode_arg, dict_get.
    cbn [field_name decode_default field_type]. rewrite Hk.
    cbn [isinstance]. discriminate.
  - destruct (setter h (decode_arg data h) self) as [[e|[]] self1].
    + discriminate.
    + apply IH.
Qed.

Lemma decode_without_kernel_file data self :
  dict_lookup "kernel_file" data = None ->
  exists e self', decode data self = (inl e, self').
Proof.
  intros Hk. destruct (decode data self) as [[e|[]] self'] eqn:E.
  - now exists e, self'.
  - exfalso. rewrite decode_assign_all, (decode_order_split F_kernel_file) in E.
    exact (assign_all_without_kernel_file data _ _ Hk self self' E).
Qed.

(** ** Sample runs *)

Example py_eq_bool_int : py_eq (PBool true) (PInt 1) = true.
Proof. reflexivity. Qed.

Example py_eq_list_order :
  py_eq (PList [PStr "i386"; PStr "x86_64"])
        (PList [PStr "x86_64"; PStr "i386"]) = false.
Proof. reflexivity. Qed.

Example py_eq_dict_order :
  py_eq (PDict [("grub", PInt 1); ("pxe", PInt 2)])
        (PDict [("pxe", PInt 2); ("grub", PInt 1)]) = true.
Proof. reflexivity. Qed.

Example isolinux_ok_rejects_int :
  isolinux_ok_setter (PInt 1) __init__ =
  (inl (TypeError "The isolinux_ok should be a bool."), __init__).
Proof. reflexivity. Qed.

Example signatures_accepts_any_list :
  signatures_setter (PList [PInt 1]) __init__ =
  (inr tt, store_signatures (PList [PInt 1]) __init__).
Proof. reflexivity. Qed.

(** The fragment of a version that names two properties only: the
    run assigns [kernel_arch] and stops at [kernel_file]. *)
Example decode_debian_10 :
  decode [("kernel_arch", PStr "x86_64"); ("isolinux_ok", PBool true)]
         __init__ =
  (inl (TypeError "The kernel_file should be a str."),
   store_kernel_arch (PStr "x86_64") __init__).
Proof. reflexivity. Qed.

Example decode_with_kernel_file :
  decode [("kernel_arch", PStr "x86_64"); ("kernel_file", PStr "linux")]
         __init__ =
  (inr tt,
   store_kernel_file (PStr "linux")
     (store_kernel_arch (PStr "x86_64") __init__)).
Proof. reflexivity. Qed.

(** * The claims *)

(** C1. Round trip: decoding the fragment [encode] produces, into a
    freshly constructed instance, returns normally and leaves an
    instance that [__eq__] finds equal to the encoded one.  The encoded
    instance is any that the setters can have built: its attributes
    hold objects of the classes the setters test for. *)
Theorem decode_encode_roundtrip (self : Osversion) :
  typed self = true ->
  wf self = true ->
  exists fresh,
    decode (encode self) __init__ = (inr tt, fresh) /\
    __eq__ fresh self = true.
Proof.
  intros Hty Hwf. rewrite decode_assign_all.
  destruct (assign_all_ok (encode self) decode_order __init__)
    as [fresh [Hrun [Hin _]]].
  { intros g _. rewrite decode_arg_encode. now apply typed_getter. }
  assert (fresh = self) as ->.
  { apply getter_ext. intros f.
    rewrite (Hin f (in_decode_order f)). apply decode_arg_encode. }
  exists self. split; [exact Hrun | now apply eq_refl_wf].
Qed.

Lemma decode_encode_roundtrip_witness :
  typed leap_15_2 = true /\ wf leap_15_2 = true /\
  exists fresh,
    decode (encode leap_15_2) __init__ = (inr tt, fresh) /\
    __eq__ fresh leap_15_2 = true.
Proof.
  split; [reflexivity|]. split; [reflexivity|].
  apply (decode_encode_roundtrip leap_15_2); reflexivity.
Defined.

(** C2. Decoding the empty fragment into a fresh instance does not
    return: the default handed to the [kernel_file] setter is an empty
    list, which that setter refuses.  The seven earlier assignments have
    stored their defaults, so the instance is as constructed. *)
Theorem decode_empty_fragment_raises :
  decode [] __init__ =
  (inl (TypeError "The kernel_file should be a str."), __init__).
Proof. reflexivity. Qed.

(** The declared type is at least as strict as the class the setter
    tests for, and is that class for every property but the four
    sequence properties. *)
Lemma declared_type_class (f : field) (v : pyval) :
  (has_declared_type f v = true -> isinstance v (field_type f) = true) /\
  (field_type f <> TList ->
   has_declared_type f v = isinstance v (field_type f)).
Proof.
  unfold has_declared_type. split.
  - destruct (field_type f); try (intros H; exact H).
    destruct v; cbn; intros H; solve [reflexivity | discriminate H].
  - intros Hne. destruct (field_type f); solve [reflexivity | congruence].
Qed.

(** C3, as stated, is false: a list with an item that is not a string
    is not of the type declared for [signatures], yet the setter
    returns normally and the property no longer holds its previous
    value. *)
Lemma setter_accepts_outside_declared_type :
  ~ (forall (f : field) (value : pyval) (self : Osversion),
        has_declared_type f value = false ->
        exists e, setter f value self = (inl e, self)).
Proof.
  intros H.
  destruct (H F_signatures (PList [PInt 1]) __init__ eq_refl) as [e He].
  discriminate He.
Qed.

(** C3, amended.  A setter given a value that is not an instance of
    the class it tests for (list for the four sequence properties,
    string, boolean or dictionary for the others) raises [TypeError]
    with the message of that property and leaves the instance, hence
    the property, as it was. *)
Theorem setter_rejects_wrong_class (f : field) (value : pyval)
    (self : Osversion) :
  isinstance value (field_type f) = false ->
  setter f value self = (inl (TypeError (field_message f)), self).
Proof.
  intros Hv. rewrite setter_spec, Hv. reflexivity.
Qed.

Lemma setter_rejects_wrong_class_witness :
  isinstance (PInt 1) (field_type F_isolinux_ok) = false /\
  isolinux_ok_setter (PInt 1) leap_15_2 =
    (inl (TypeError "The isolinux_ok should be a bool."), leap_15_2).
Proof.
  split; [reflexivity|].
  apply (setter_rejects_wrong_class F_isolinux_ok (PInt 1) leap_15_2).
  reflexivity.
Defined.

(** C4, as stated, is false: the setter of a sequence property accepts
    a list whatever its items are. *)
Lemma sequence_setter_accepts_non_string_items :
  ~ (forall (f : field) (value : pyval) (self : Osversion),
        field_type f = TList ->
        ((exists self', setter f value self = (inr tt, self')) <->
         seq_of_string value = true)).
Proof.
  intros H.
  destruct (H F_signatures (PList [PInt 1]) __init__ eq_refl) as [Hacc _].
  assert (seq_of_string (PList [PInt 1]) = true) as C.
  { apply Hacc. eexists. reflexivity. }
  discriminate C.
Qed.

(** C4, amended.  The setter of a sequence property accepts a value if
    and only if it is a list; it then stores the list as it is.  Any
    other value raises [TypeError] and leaves the instance unchanged. *)
Theorem sequence_setter_accepts_lists (f : field) (value : pyval)
    (self : Osversion) :
  field_type f = TList ->
  ((exists self', setter f value self = (inr tt, self')) <->
   isinstance value TList = true) /\
  (isinstance value TList = true ->
   setter f value self = (inr tt, store f value self)) /\
  (isinstance value TList = false ->
   setter f value self = (inl (TypeError (field_message f)), self)).
Proof.
  intros Hf. rewrite setter_spec, Hf.
  destruct (isinstance value TList); repeat split; try discriminate.
  - eexists. reflexivity.
  - intros [self' E]. discriminate E.
Qed.

Lemma sequence_setter_accepts_lists_witness :
  field_type F_boot_files = TList /\
  ((exists self',
      boot_files_setter (PList [PStr "pxelinux.0"; PInt 1]) leap_15_2 =
        (inr tt, self')) <->
   isinstance (PList [PStr "pxelinux.0"; PInt 1]) TList = true) /\
  (isinstance (PList [PStr "pxelinux.0"; PInt 1]) TList = true ->
   boot_files_setter (PList [PStr "pxelinux.0"; PInt 1]) leap_15_2 =
     (inr tt,
      store_boot_files (PList [PStr "pxelinux.0"; PInt 1]) leap_15_2)) /\
  (isinstance (PList [PStr "pxelinux.0"; PInt 1]) TList = false ->
   boot_files_setter (PList [PStr "pxelinux.0"; PInt 1]) leap_15_2 =
     (inl (TypeError (field_message F_boot_files)), leap_15_2)).
Proof.
  split; [reflexivity|].
  apply (sequence_setter_accepts_lists F_boot_files
           (PList [PStr "pxelinux.0"; PInt 1]) leap_15_2).
  reflexivity.
Defined.

(** C5. The keys of the fragment [encode] returns are the sixteen
    property names, each once, and under each name the fragment holds
    what the getter of that property returns. *)
Theorem encode_keys_and_values (self : Osversion) :
  dict_keys (encode self) = field_names /\
  NoDup field_names /\
  List.length field_names = 16 /\
  (forall k, In k (dict_keys (encode self)) <-> exists f, k = field_name f) /\
  (forall f, dict_lookup (field_name f) (encode self) = Some (getter f self)).
Proof.
  split; [reflexivity|]. split; [apply distinct_NoDup; reflexivity|].
  split; [reflexivity|]. split.
  - intros k. change (dict_keys (encode self)) with (map field_name decode_order).
    rewrite in_map_iff. split.
    + intros [f [E _]]. now exists f.
    + intros [f E]. exists f. split; [now symmetry | apply in_decode_order].
  - intros f. destruct f; reflexivity.
Qed.

(** C6. A key that names none of the sixteen properties is not looked
    at: adding it to a fragment, with any value, changes neither the
    outcome of [decode] nor the instance it leaves. *)
Theorem decode_ignores_unknown_key (data : pydict) (k : string)
    (v : pyval) (self : Osversion) :
  is_field_name k = false ->
  decode (dict_set k v data) self = decode data self.
Proof.
  intros Hk. rewrite !decode_assign_all.
  assert (forall f, decode_arg (dict_set k v data) f = decode_arg data f) as Harg.
  { intros f. unfold decode_arg, dict_get.
    rewrite dict_lookup_set_other; [reflexivity|].
    now apply is_field_name_false. }
  revert self. induction decode_order as [|f fs IH]; intros self.
  - reflexivity.
  - simpl. unfold bind. rewrite Harg.
    destruct (setter f (decode_arg data f) self) as [[e|[]] self1].
    + reflexivity.
    + apply IH.
Qed.

Lemma decode_ignores_unknown_key_witness :
  is_field_name "comment" = false /\
  decode (dict_set "comment" (PStr "added by hand")
            [("kernel_arch", PStr "x86_64"); ("kernel_file", PStr "linux")])
         __init__ =
  decode [("kernel_arch", PStr "x86_64"); ("kernel_file", PStr "linux")]
         __init__.
Proof.
  split; [reflexivity|].
  apply (decode_ignores_unknown_key
           [("kernel_arch", PStr "x86_64"); ("kernel_file", PStr "linux")]
           "comment" (PStr "added by hand") __init__).
  reflexivity.
Defined.

(** C7. [__eq__] answers true exactly when the sixteen properties
    compare equal pairwise.  Two lists compare equal exactly when they
    have equal items at equal positions; a dictionary compares the same
    against any other, on either side, whatever order its items were
    inserted in. *)
Theorem eq_iff_fields_equal (self other : Osversion) :
  (__eq__ self other = true <->
   forall f, py_eq (getter f self) (getter f other) = true) /\
  (forall xs ys,
     py_eq (PList xs) (PList ys) = true <->
     Forall2 (fun x y => py_eq x y = true) xs ys) /\
  (forall d d' e,
     NoDup (dict_keys d) -> Permutation d d' ->
     py_eq (PDict d) (PDict e) = py_eq (PDict d') (PDict e) /\
     py_eq (PDict e) (PDict d) = py_eq (PDict e) (PDict d')).
Proof.
  split; [apply eq_fields|]. split.
  - intros xs ys. rewrite py_eq_list. apply list_eq_Forall2.
  - intros d d' e Hn Hp. split.
    + now apply py_eq_dict_perm_l.
    + now apply py_eq_dict_perm_r.
Qed.

Lemma eq_iff_fields_equal_witness :
  NoDup (dict_keys [("x86_64", PStr "grub"); ("ppc64", PStr "yaboot")]) /\
  Permutation [("x86_64", PStr "grub"); ("ppc64", PStr "yaboot")]
              [("ppc64", PStr "yaboot"); ("x86_64", PStr "grub")] /\
  py_eq (PDict [("x86_64", PStr "grub"); ("ppc64", PStr "yaboot")])
        (_boot_loaders leap_15_2) =
  py_eq (PDict [("ppc64", PStr "yaboot"); ("x86_64", PStr "grub")])
        (_boot_loaders leap_15_2) /\
  py_eq (_boot_loaders leap_15_2)
        (PDict [("x86_64", PStr "grub"); ("ppc64", PStr "yaboot")]) =
  py_eq (_boot_loaders leap_15_2)
        (PDict [("ppc64", PStr "yaboot"); ("x86_64", PStr "grub")]).
Proof.
  assert (NoDup (dict_keys [("x86_64", PStr "grub"); ("ppc64", PStr "yaboot")]))
    as Hn by (apply distinct_NoDup; reflexivity).
  split; [exact Hn|]. split; [apply perm_swap|].
  apply (proj2 (proj2 (eq_iff_fields_equal leap_15_2 __init__))).
  - exact Hn.
  - apply perm_swap.
Defined.

(** C8. The deleter of a property returns normally, after which the
    getter of that property returns its default (empty string, empty
    list, [False] or empty dictionary) and every other getter returns
    what it did before. *)
Theorem deleter_resets_field (f : field) (self : Osversion) :
  exists self',
    deleter f self = (inr tt, self') /\
    getter f self' = field_default f /\
    (forall g, g <> f -> getter g self' = getter g self).
Proof.
  exists (store f (field_default f) self). split; [apply deleter_spec|]. split.
  - apply getter_store_same.
  - intros g Hg. now apply getter_store_other.
Qed.

(** C9. When [decode] stops at the key of property [f], present in the
    fragment with a value its setter refuses, and all earlier setters
    accepted, the [TypeError] of [f] is raised; the properties assigned
    before [f] hold what the fragment gave them (its value, or the
    default where the key is missing), and [f] and the properties after
    it hold what they held before the call. *)
Theorem decode_failure_is_partial (data : pydict) (f : field) (v : pyval)
    (self : Osversion) :
  dict_lookup (field_name f) data = Some v ->
  isinstance v (field_type f) = false ->
  (forall g, field_index g < field_index f ->
     isinstance (decode_arg data g) (field_type g) = true) ->
  exists self',
    decode data self = (inl (TypeError (field_message f)), self') /\
    (forall g, field_index g < field_index f ->
       getter g self' = decode_arg data g) /\
    (forall g, field_index f <= field_index g ->
       getter g self' = getter g self).
Proof.
  intros Hpresent Hv Hbefore.
  rewrite decode_assign_all, (decode_order_split f).
  destruct (assign_all_raises data (firstn (field_index f) decode_order) f
              (skipn (S (field_index f)) decode_order) self)
    as [self' [Hrun [Hin Hout]]].
  - intros g Hg. apply Hbefore. now apply in_firstn_decode_order.
  - unfold decode_arg, dict_get. now rewrite Hpresent.
  - exists self'. split; [exact Hrun|]. split.
    + intros g Hg. apply Hin. now apply in_firstn_decode_order.
    + intros g Hg. apply Hout. rewrite in_firstn_decode_order. lia.
Qed.

Lemma decode_failure_is_partial_witness :
  dict_lookup (field_name F_isolinux_ok)
    [("version_file", PStr "os-release"); ("isolinux_ok", PStr "yes");
     ("kernel_file", PStr "vmlinuz"); ("boot_files", PList [])] =
    Some (PStr "yes") /\
  isinstance (PStr "yes") (field_type F_isolinux_ok) = false /\
  (forall g, field_index g < field_index F_isolinux_ok ->
     isinstance
       (decode_arg
          [("version_file", PStr "os-release"); ("isolinux_ok", PStr "yes");
           ("kernel_file", PStr "vmlinuz"); ("boot_files", PList [])] g)
       (field_type g) = true) /\
  exists self',
    decode [("version_file", PStr "os-release"); ("isolinux_ok", PStr "yes");
            ("kernel_file", PStr "vmlinuz"); ("boot_files", PList [])]
           leap_15_2 =
      (inl (TypeError (field_message F_isolinux_ok)), self') /\
    (forall g, field_index g < field_index F_isolinux_ok ->
       getter g self' =
       decode_arg
         [("version_file", PStr "os-release"); ("isolinux_ok", PStr "yes");
          ("kernel_file", PStr "vmlinuz"); ("boot_files", PList [])] g) /\
    (forall g, field_index F_isolinux_ok <= field_index g ->
       getter g self' = getter g leap_15_2).
Proof.
  assert (forall g, field_index g < field_index F_isolinux_ok ->
     isinstance
       (decode_arg
          [("version_file", PStr "os-release"); ("isolinux_ok", PStr "yes");
           ("kernel_file", PStr "vmlinuz"); ("boot_files", PList [])] g)
       (field_type g) = true) as Hbefore.
  { intros g Hg. destruct g; simpl in Hg; solve [reflexivity | lia]. }
  split; [reflexivity|]. split; [reflexivity|]. split; [exact Hbefore|].
  apply (decode_failure_is_partial
           [("version_file", PStr "os-release"); ("isolinux_ok", PStr "yes");
            ("kernel_file", PStr "vmlinuz"); ("boot_files", PList [])]
           F_isolinux_ok (PStr "yes") leap_15_2).
  - reflexivity.
  - reflexivity.
  - exact Hbefore.
Defined.

(** C10. When a setter returns normally, the getter of its property
    returns the value it was given and every other getter returns what
    it did before. *)
Theorem setter_success_frame (f : field) (value : pyval)
    (self self' : Osversion) :
  setter f value self = (inr tt, self') ->
  getter f self' = value /\
  (forall g, g <> f -> getter g self' = getter g self).
Proof.
  rewrite setter_spec.
  destruct (isinstance value (field_type f)); intros E; inversion E; subst.
  split.
  - apply getter_store_same.
  - intros g Hg. now apply getter_store_other.
Qed.

Lemma setter_success_frame_witness :
  kernel_options_setter (PStr "textmode=1") leap_15_2 =
    (inr tt, store_kernel_options (PStr "textmode=1") leap_15_2) /\
  kernel_options (store_kernel_options (PStr "textmode=1") leap_15_2) =
    PStr "textmode=1" /\
  (forall g, g <> F_kernel_options ->
     getter g (store_kernel_options (PStr "textmode=1") leap_15_2) =
     getter g leap_15_2).
Proof.
  split; [reflexivity|].
  apply (setter_success_frame F_kernel_options (PStr "textmode=1") leap_15_2).
  reflexivity.
Defined.

(** * Further properties of the model *)

(** ** What a run of [decode] tells about the fragment *)

Lemma assign_all_returns data fs : forall self self',
  assign_all data fs self = (inr tt, self') ->
  forall g, In g fs -> isinstance (decode_arg data g) (field_type g) = true.
Proof.
  induction fs as [|h fs IH]; intros self self' Hrun g Hg; [destruct Hg|].
  cbn [assign_all] in Hrun. unfold bind in Hrun. rewrite setter_spec in Hrun.
  destruct (isinstance (decode_arg data h) (field_type h)) eqn:Hh;
    [|discriminate Hrun].
  destruct Hg as [<-|Hg]; [exact Hh|].
  exact (IH _ _ Hrun g Hg).
Qed.

(** The first refused property of a list splits it. *)
Lemma first_refused data fs :
  (exists g, In g fs /\ isinstance (decode_arg data g) (field_type g) = false) ->
  exists before f after,
    fs = (before ++ f :: after)%list /\
    (forall g, In g before ->
       isinstance (decode_arg data g) (field_type g) = true) /\
    isinstance (decode_arg data f) (field_type f) = false.
Proof.
  induction fs as [|h fs IH]; intros [g [Hg Hbad]]; [destruct Hg|].
  destruct (isinstance (decode_arg data h) (field_type h)) eqn:Hh.
  - destruct IH as [before [f [after [E [Hb Hf]]]]].
    { destruct Hg as [<-|Hg]; [congruence|]. now exists g. }
    exists (h :: before), f, after. subst fs. split; [reflexivity|].
    split; [|exact Hf]. intros g' [<-|Hg']; [exact Hh | now apply Hb].
  - exists [], h, fs. split; [reflexivity|]. split; [intros g' []|exact Hh].
Qed.

Lemma NoDup_decode_order : NoDup decode_order.
Proof.
  apply (NoDup_map_inv field_name). apply distinct_NoDup. reflexivity.
Qed.

Lemma split_unique {A : Type} (x : A) : forall a a' b b' : list A,
  NoDup (a ++ x :: b) -> (a ++ x :: b = a' ++ x :: b')%list -> a = a'.
Proof.
  induction a as [|y a IH]; intros [|y' a'] b b' Hn E; cbn in *.
  - reflexivity.
  - inversion E; subst. inversion Hn as [|? ? Hx _]; subst.
    exfalso. apply Hx. apply in_or_app. right. now left.
  - inversion E; subst. inversion Hn as [|? ? Hx _]; subst.
    exfalso. apply Hx. apply in_or_app. right. now left.
  - inversion E; subst. inversion Hn; subst. f_equal. eapply IH; eauto.
Qed.

Lemma before_is_prefix before f after :
  decode_order = (before ++ f :: after)%list ->
  before = firstn (field_index f) decode_order.
Proof.
  intros E. apply (split_unique f before _ after
                     (skipn (S (field_index f)) decode_order)).
  - rewrite <- E. apply NoDup_decode_order.
  - rewrite <- E. apply decode_order_split.
Qed.

(** Whether the setter of [f] accepts what [decode] hands it, in terms
    of the fragment: a present value must be of the class of [f]; a
    missing key is fine except for [kernel_file]. *)
Lemma accepted_iff data f :
  isinstance (decode_arg data f) (field_type f) = true <->
  match dict_lookup (field_name f) data with
  | Some v => isinstance v (field_type f) = true
  | None => f <> F_kernel_file
  end.
Proof.
  unfold decode_arg, dict_get.
  destruct (dict_lookup (field_name f) data) as [v|]; [tauto|].
  destruct f; cbn; split; intros H; try reflexivity; try discriminate;
    try congruence.
Qed.

(** X1. [decode] returns normally exactly when the fragment holds a
    string under [kernel_file] and every property key it holds is bound
    to a value of the class of that property. *)
Theorem decode_returns_iff (data : pydict) (self : Osversion) :
  (exists self', decode data self = (inr tt, self')) <->
  (exists s, dict_lookup "kernel_file" data = Some (PStr s)) /\
  (forall f v, dict_lookup (field_name f) data = Some v ->
     isinstance v (field_type f) = true).
Proof.
  split.
  - intros [self' Hrun]. rewrite decode_assign_all in Hrun.
    pose proof (assign_all_returns data decode_order self self' Hrun) as Hall.
    split.
    + pose proof (Hall F_kernel_file (in_decode_order _)) as Hk.
      apply accepted_iff in Hk. cbn [field_name field_type] in Hk.
      destruct (dict_lookup "kernel_file" data) as [[| | |s| |]|];
        try discriminate Hk; [now exists s | congruence].
    + intros f v Hf. pose proof (Hall f (in_decode_order _)) as Hacc.
      apply accepted_iff in Hacc. now rewrite Hf in Hacc.
  - intros [[s Hs] Hty].
    destruct (decode_ok data self) as [self' [Hrun _]]; [|now exists self'].
    intros g. apply accepted_iff.
    destruct (dict_lookup (field_name g) data) as [v|] eqn:Hg.
    + now apply (Hty g).
    + intros ->. cbn [field_name] in Hg. congruence.
Qed.

(** X2. When [decode] returns normally, every property holds the value
    the fragment binds to its key, and its documented default (empty
    string, empty list, [False], empty dictionary) when the fragment
    has no such key; what the instance held before plays no part. *)
Theorem decode_result (data : pydict) (self self' : Osversion) :
  decode data self = (inr tt, self') ->
  forall f, getter f self' = dict_get data (field_name f) (field_default f).
Proof.
  intros Hrun f. rewrite decode_assign_all in Hrun.
  pose proof (assign_all_returns data decode_order self self' Hrun) as Hall.
  destruct (assign_all_ok data decode_order self) as [s1 [Hrun1 [Hin _]]].
  { intros g _. apply Hall, in_decode_order. }
  rewrite Hrun in Hrun1. inversion Hrun1; subst s1.
  rewrite (Hin f (in_decode_order f)).
  pose proof (Hall f (in_decode_order f)) as Hacc. apply accepted_iff in Hacc.
  unfold decode_arg, dict_get in *.
  destruct (dict_lookup (field_name f) data); [reflexivity|].
  destruct f; solve [reflexivity | congruence].
Qed.

Lemma decode_result_witness :
  decode [("kernel_file", PStr "linux"); ("isolinux_ok", PBool true)]
         leap_15_2 =
    (inr tt,
     store_isolinux_ok (PBool true) (store_kernel_file (PStr "linux") __init__))
  /\
  forall f,
    getter f (store_isolinux_ok (PBool true)
                (store_kernel_file (PStr "linux") __init__)) =
    dict_get [("kernel_file", PStr "linux"); ("isolinux_ok", PBool true)]
             (field_name f) (field_default f).
Proof.
  split; [reflexivity|].
  apply (decode_result
           [("kernel_file", PStr "linux"); ("isolinux_ok", PBool true)]
           leap_15_2).
  reflexivity.
Defined.

(** A run of [decode] that raises, by the place where it stops. *)
Lemma decode_raise_split data e self self' :
  decode data self = (inl e, self') ->
  exists before f after,
    decode_order = (before ++ f :: after)%list /\
    before = firstn (field_index f) decode_order /\
    e = TypeError (field_message f) /\
    isinstance (decode_arg data f) (field_type f) = false /\
    (forall g, In g before ->
       isinstance (decode_arg data g) (field_type g) = true /\
       getter g self' = decode_arg data g) /\
    (forall g, ~ In g before -> getter g self' = getter g self).
Proof.
  intros Hrun. rewrite decode_assign_all in Hrun.
  destruct (first_refused data decode_order) as [before [f [after [E [Hb Hf]]]]].
  { destruct (existsb (fun g => negb (isinstance (decode_arg data g)
                                        (field_type g))) decode_order) eqn:Hex.
    - apply existsb_exists in Hex. destruct Hex as [g [Hg Hbad]].
      exists g. split; [exact Hg|]. now apply negb_true_iff in Hbad.
    - exfalso. destruct (decode_ok data self) as [s1 [Hok _]].
      + intros g.
        destruct (isinstance (decode_arg data g) (field_type g)) eqn:Hacc;
          [reflexivity|].
        assert (existsb (fun g => negb (isinstance (decode_arg data g)
                                          (field_type g))) decode_order = true)
          as C; [|congruence].
        apply existsb_exists. exists g.
        split; [apply in_decode_order | now rewrite Hacc].
      + rewrite decode_assign_all in Hok. congruence. }
  destruct (assign_all_raises data before f after self Hb Hf)
    as [s1 [Hrun1 [Hin Hout]]].
  rewrite <- E, Hrun in Hrun1. inversion Hrun1; subst.
  exists before, f, after. split; [exact E|].
  split; [exact (before_is_prefix before f after E)|].
  split; [reflexivity|]. split; [exact Hf|]. split; [|exact Hout].
  intros g Hg. split; [now apply Hb | now apply Hin].
Qed.

(** X3. Whenever [decode] raises, the exception is the [TypeError] of
    one property [f]: the first, in assignment order, whose setter
    refuses what it is handed.  The properties before [f] hold what
    they were handed; [f] and the later ones are untouched. *)
Theorem decode_raises_at_first_refusal (data : pydict) (e : exn)
    (self self' : Osversion) :
  decode data self = (inl e, self') ->
  exists f,
    e = TypeError (field_message f) /\
    isinstance (decode_arg data f) (field_type f) = false /\
    (forall g, field_index g < field_index f ->
       isinstance (decode_arg data g) (field_type g) = true /\
       getter g self' = decode_arg data g) /\
    (forall g, field_index f <= field_index g ->
       getter g self' = getter g self).
Proof.
  intros Hrun.
  destruct (decode_raise_split data e self self' Hrun)
    as [before [f [after [_ [Hpre [He [Hf [Hin Hout]]]]]]]].
  exists f. split; [exact He|]. split; [exact Hf|]. split.
  - intros g Hg. apply Hin. rewrite Hpre. now apply in_firstn_decode_order.
  - intros g Hg. apply Hout. rewrite Hpre, in_firstn_decode_order. lia.
Qed.

Lemma decode_raises_at_first_refusal_witness :
  decode [("kernel_arch", PInt 64)] leap_15_2 =
    (inl (TypeError "The kernel_arch should be a str."),
     store_version_file_regex (PStr "")
       (store_version_file (PStr "")
          (store_signatures (PList []) leap_15_2))) /\
  exists f,
    TypeError "The kernel_arch should be a str." =
      TypeError (field_message f) /\
    isinstance (decode_arg [("kernel_arch", PInt 64)] f) (field_type f) =
      false /\
    (forall g, field_index g < field_index f ->
       isinstance (decode_arg [("kernel_arch", PInt 64)] g) (field_type g) =
         true /\
       getter g (store_version_file_regex (PStr "")
                   (store_version_file (PStr "")
                      (store_signatures (PList []) leap_15_2))) =
       decode_arg [("kernel_arch", PInt 64)] g) /\
    (forall g, field_index f <= field_index g ->
       getter g (store_version_file_regex (PStr "")
                   (store_version_file (PStr "")
                      (store_signatures (PList []) leap_15_2))) =
       getter g leap_15_2).
Proof.
  split; [reflexivity|].
  apply (decode_raises_at_first_refusal [("kernel_arch", PInt 64)]
           (TypeError "The kernel_arch should be a str.") leap_15_2).
  reflexivity.
Defined.

(** X4. A fragment without the key [kernel_file] is never decoded: the
    run raises the [TypeError] of [kernel_file] or of an earlier
    property, and [kernel_file] and the eight properties after it are
    left as they were. *)
Theorem decode_missing_kernel_file (data : pydict) (self : Osversion) :
  dict_lookup "kernel_file" data = None ->
  exists f self',
    decode data self = (inl (TypeError (field_message f)), self') /\
    field_index f <= field_index F_kernel_file /\
    (forall g, field_index F_kernel_file <= field_index g ->
       getter g self' = getter g self).
Proof.
  intros Hk. destruct (decode_without_kernel_file data self Hk) as [e [self' Hrun]].
  destruct (decode_raise_split data e self self' Hrun)
    as [before [f [after [_ [Hpre [He [Hf [Hin Hout]]]]]]]].
  assert (field_index f <= field_index F_kernel_file) as Hle.
  { destruct (Nat.le_gt_cases (field_index f) (field_index F_kernel_file))
      as [H|H]; [exact H|].
    exfalso. destruct (Hin F_kernel_file) as [Hacc _].
    { rewrite Hpre. now apply in_firstn_decode_order. }
    apply accepted_iff in Hacc. cbn [field_name] in Hacc.
    rewrite Hk in Hacc. now apply Hacc. }
  exists f, self'. subst e. split; [exact Hrun|]. split; [exact Hle|].
  intros g Hg. apply Hout. rewrite Hpre, in_firstn_decode_order. lia.
Qed.

Lemma decode_missing_kernel_file_witness :
  dict_lookup "kernel_file" [("kernel_arch", PStr "x86_64")] = None /\
  exists f self',
    decode [("kernel_arch", PStr "x86_64")] leap_15_2 =
      (inl (TypeError (field_message f)), self') /\
    field_index f <= field_index F_kernel_file /\
    (forall g, field_index F_kernel_file <= field_index g ->
       getter g self' = getter g leap_15_2).
Proof.
  split; [reflexivity|].
  apply (decode_missing_kernel_file [("kernel_arch", PStr "x86_64")] leap_15_2).
  reflexivity.
Defined.

(** X5. What [decode] leaves on a normal return depends on the
    fragment alone: started on any other instance it returns normally
    too and leaves the same instance; in particular decoding the same
    fragment a second time changes nothing. *)
Theorem decode_forgets_previous_state (data : pydict)
    (self self' other : Osversion) :
  decode data self = (inr tt, self') ->
  decode data other = (inr tt, self') /\
  decode data self' = (inr tt, self').
Proof.
  intros Hrun. rewrite decode_assign_all in Hrun.
  pose proof (assign_all_returns data decode_order self self' Hrun) as Hall.
  assert (forall start, decode data start = (inr tt, self')) as Hany.
  { intros start.
    destruct (assign_all_ok data decode_order self) as [s1 [Hr1 [Hin1 _]]];
      [exact Hall|].
    destruct (assign_all_ok data decode_order start) as [s2 [Hr2 [Hin2 _]]];
      [exact Hall|].
    rewrite Hrun in Hr1. inversion Hr1; subst s1.
    rewrite decode_assign_all, Hr2. f_equal.
    apply getter_ext. intros f.
    now rewrite (Hin1 f (in_decode_order f)), (Hin2 f (in_decode_order f)). }
  split; apply Hany.
Qed.

Lemma decode_forgets_previous_state_witness :
  decode [("kernel_file", PStr "linux")] leap_15_2 =
    (inr tt, store_kernel_file (PStr "linux") __init__) /\
  decode [("kernel_file", PStr "linux")] __init__ =
    (inr tt, store_kernel_file (PStr "linux") __init__) /\
  decode [("kernel_file", PStr "linux")]
         (store_kernel_file (PStr "linux") __init__) =
    (inr tt, store_kernel_file (PStr "linux") __init__).
Proof.
  split; [reflexivity|].
  apply (decode_forgets_previous_state [("kernel_file", PStr "linux")]
           leap_15_2).
  reflexivity.
Defined.

(** ** Fragments and records *)

Lemma encode_by_field self :
  encode self = map (fun f => (field_name f, getter f self)) decode_order.
Proof. reflexivity. Qed.

Lemma encode_lookup self f :
  dict_lookup (field_name f) (encode self) = Some (getter f self).
Proof. destruct f; reflexivity. Qed.

Lemma dict_get_present {V : Type} (d : list (string * V)) k (x y : V) :
  In k (dict_keys d) -> dict_get d k x = dict_get d k y.
Proof.
  intros Hin. unfold dict_get.
  destruct (dict_lookup k d) eqn:E; [reflexivity|].
  apply dict_lookup_none in E. contradiction.
Qed.

(** A dictionary is the list of its keys, each with the value it is
    looked up to. *)
Lemma dict_rebuild {V : Type} (dflt : V) (d : list (string * V)) :
  NoDup (dict_keys d) ->
  map (fun k => (k, dict_get d k dflt)) (dict_keys d) = d.
Proof.
  induction d as [|[k v] d IH]; intros Hn; [reflexivity|].
  inversion Hn as [|? ? Hk Hn']; subst. cbn [dict_keys map fst].
  f_equal.
  - unfold dict_get. cbn. now rewrite String.eqb_refl.
  - transitivity (map (fun k => (k, dict_get d k dflt)) (dict_keys d));
      [|exact (IH Hn')].
    apply map_ext_in. intros k' Hk'.
    unfold dict_get. cbn. destruct (String.eqb_spec k' k) as [->|_];
      [contradiction | reflexivity].
Qed.

(** X6. Re-encoding: when a fragment whose keys are the sixteen
    property names, in the order [encode] lists them, is decoded
    normally, [encode] of the resulting instance is that fragment. *)
Theorem encode_decode_fragment (data : pydict) (self self' : Osversion) :
  dict_keys data = field_names ->
  decode data self = (inr tt, self') ->
  encode self' = data.
Proof.
  intros Hkeys Hrun. rewrite decode_assign_all in Hrun.
  pose proof (assign_all_returns data decode_order self self' Hrun) as Hall.
  destruct (assign_all_ok data decode_order self) as [s1 [Hr1 [Hin _]]];
    [exact Hall|].
  rewrite Hrun in Hr1. inversion Hr1; subst s1.
  assert (NoDup (dict_keys data)) as Hn.
  { rewrite Hkeys. apply distinct_NoDup. reflexivity. }
  transitivity (map (fun k => (k, dict_get data k PNone)) (dict_keys data));
    [|exact (dict_rebuild PNone data Hn)].
  rewrite Hkeys, encode_by_field. unfold field_names. rewrite map_map.
  apply map_ext_in. intros f Hf. f_equal.
  rewrite (Hin f Hf). unfold decode_arg. apply dict_get_present.
  rewrite Hkeys. now apply in_map.
Qed.

Lemma encode_decode_fragment_witness :
  dict_keys (encode leap_15_2) = field_names /\
  decode (encode leap_15_2) __init__ = (inr tt, leap_15_2) /\
  encode leap_15_2 = encode leap_15_2.
Proof.
  split; [reflexivity|]. split; [reflexivity|].
  apply (encode_decode_fragment (encode leap_15_2) __init__ leap_15_2);
    reflexivity.
Defined.

(** X7. [encode] loses nothing: instances with the same fragment are
    the same instance. *)
Theorem encode_injective (a b : Osversion) :
  encode a = encode b -> a = b.
Proof.
  intros E. apply getter_ext. intros f.
  pose proof (encode_lookup a f) as Ha. rewrite E, encode_lookup in Ha.
  now inversion Ha.
Qed.

Lemma encode_injective_witness :
  encode (store_kernel_file (PStr "linux") __init__) =
  encode (store_kernel_file (PStr "linux")
            (store_kernel_file (PStr "vmlinuz") __init__)) /\
  store_kernel_file (PStr "linux") __init__ =
  store_kernel_file (PStr "linux")
    (store_kernel_file (PStr "vmlinuz") __init__).
Proof.
  split; [reflexivity|].
  apply (encode_injective (store_kernel_file (PStr "linux") __init__)).
  reflexivity.
Defined.

(** X8. Two instances are equal for [__eq__] exactly when the fragments
    [encode] gives for them are equal as dictionaries. *)
Theorem eq_is_equality_of_encodings (a b : Osversion) :
  __eq__ a b = py_eq (PDict (encode a)) (PDict (encode b)).
Proof.
  rewrite py_eq_dict. unfold __eq__.
  cbn [encode List.length Nat.eqb dict_items_eq dict_lookup String.eqb
       Ascii.eqb Bool.eqb andb].
  unfold signatures, version_file, version_file_regex, kernel_arch,
    kernel_arch_regex, supported_arches, supported_repo_breeds, kernel_file,
    initrd_file, isolinux_ok, default_autoinstall, kernel_options,
    kernel_options_post, template_files, boot_files, boot_loaders.
  rewrite andb_true_r, <- !andb_assoc. reflexivity.
Qed.

(** X9. Decoding the fragment of a typed instance [a] into any
    instance, fresh or not, returns normally and makes it [a]. *)
Theorem decode_encode_copies (a b : Osversion) :
  typed a = true ->
  decode (encode a) b = (inr tt, a).
Proof.
  intros Hty. rewrite decode_assign_all.
  destruct (assign_all_ok (encode a) decode_order b) as [s1 [Hr1 [Hin _]]].
  { intros g _. rewrite decode_arg_encode. now apply typed_getter. }
  rewrite Hr1. f_equal. apply getter_ext. intros f.
  rewrite (Hin f (in_decode_order f)). apply decode_arg_encode.
Qed.

Lemma decode_encode_copies_witness :
  typed leap_15_2 = true /\
  decode (encode leap_15_2) (store_kernel_arch (PStr "ppc64") __init__) =
    (inr tt, leap_15_2).
Proof.
  split; [reflexivity|].
  apply (decode_encode_copies leap_15_2); reflexivity.
Defined.

(** ** [==] is an equivalence *)

Lemma Z_of_bool_inj x y : Z_of_bool x = Z_of_bool y -> x = y.
Proof. destruct x, y; cbn; intros E; solve [reflexivity | discriminate E]. Qed.

Ltac scalar_eq :=
  rewrite ?Z.eqb_eq, ?String.eqb_eq, ?Bool.eqb_true_iff in *;
  subst;
  try match goal with
      | H : Z_of_bool _ = Z_of_bool _ |- _ => apply Z_of_bool_inj in H; subst
      end;
  solve [ reflexivity | congruence
        | apply Z.eqb_refl | apply String.eqb_refl | apply Bool.eqb_reflx ].

Lemma py_eq_trans a : forall b c,
  py_eq a b = true -> py_eq b c = true -> py_eq a c = true.
Proof.
  induction a as [| x | x | s | xs IH | d IH] using pyval_nested_ind;
    intros b c Hab Hbc;
    destruct b as [| y | y | t | ys | e]; try discriminate Hab;
    destruct c as [| z | z | u | zs | g]; try discriminate Hbc;
    try (cbn in Hab, Hbc |- *; scalar_eq).
  - rewrite py_eq_list in *. revert ys zs Hab Hbc.
    induction IH as [|x xs Hx _ IHxs]; intros [|y ys] [|z zs] Hab Hbc;
      try discriminate Hab; try discriminate Hbc; [reflexivity|].
    cbn [list_eq] in *. apply andb_true_iff in Hab, Hbc.
    destruct Hab as [H1 H2], Hbc as [H3 H4]. apply andb_true_iff. split.
    + exact (Hx _ _ H1 H3).
    + exact (IHxs _ _ H2 H4).
  - rewrite py_eq_dict in *. apply andb_true_iff in Hab, Hbc.
    destruct Hab as [L1 I1], Hbc as [L2 I2]. apply andb_true_iff. split.
    + apply Nat.eqb_eq in L1, L2. apply Nat.eqb_eq. congruence.
    + rewrite dict_items_eq_spec in *. rewrite Forall_forall in IH.
      intros k v Hin. destruct (I1 k v Hin) as [w [Hw Hvw]].
      destruct (I2 k w (dict_lookup_some_in _ _ _ Hw)) as [u [Hu Hwu]].
      exists u. split; [exact Hu|]. exact (IH (k, v) Hin _ _ Hvw Hwu).
Qed.

Lemma wf_val_dict d :
  wf_val (PDict d) = true <->
  NoDup (dict_keys d) /\ forall k v, In (k, v) d -> wf_val v = true.
Proof.
  change (wf_val (PDict d)) with
    (distinct (dict_keys d) &&
     forallb (fun kv => let '(_, w) := kv in wf_val w) d).
  rewrite andb_true_iff, distinct_NoDup, forallb_forall. split.
  - intros [Hn H]. split; [exact Hn|]. intros k v Hin. exact (H (k, v) Hin).
  - intros [Hn H]. split; [exact Hn|]. intros [k v] Hin. exact (H k v Hin).
Qed.

Lemma py_eq_sym a : forall b,
  wf_val a = true -> wf_val b = true ->
  py_eq a b = true -> py_eq b a = true.
Proof.
  induction a as [| x | x | s | xs IH | d IH] using pyval_nested_ind;
    intros b Ha Hb Hab;
    destruct b as [| y | y | t | ys | e]; try discriminate Hab;
    try (cbn in Hab |- *; scalar_eq).
  - rewrite py_eq_list in *.
    change (forallb wf_val xs = true) in Ha.
    change (forallb wf_val ys = true) in Hb.
    revert ys Ha Hb Hab.
    induction IH as [|x xs Hx _ IHxs]; intros [|y ys] Ha Hb Hab;
      try discriminate Hab; [reflexivity|].
    cbn [list_eq forallb] in *. apply andb_true_iff in Ha, Hb, Hab.
    destruct Ha as [A1 A2], Hb as [B1 B2], Hab as [H1 H2].
    apply andb_true_iff. split.
    + exact (Hx _ A1 B1 H1).
    + exact (IHxs _ A2 B2 H2).
  - rewrite py_eq_dict in *. apply andb_true_iff in Hab.
    destruct Hab as [L I]. apply Nat.eqb_eq in L.
    apply wf_val_dict in Ha, Hb. destruct Ha as [Nd Wd], Hb as [Ne We].
    apply andb_true_iff. split; [apply Nat.eqb_eq; congruence|].
    rewrite dict_items_eq_spec in *. rewrite Forall_forall in IH.
    assert (incl (dict_keys d) (dict_keys e)) as Hde.
    { intros k Hk. apply in_map_iff in Hk. destruct Hk as [[k0 v] [E Hin]].
      cbn in E. subst k0. destruct (I k v Hin) as [w [Hw _]].
      apply dict_lookup_some_in in Hw.
      apply in_map_iff. now exists (k, w). }
    assert (incl (dict_keys e) (dict_keys d)) as Hed.
    { apply NoDup_length_incl; [exact Nd | | exact Hde].
      unfold dict_keys. rewrite !length_map. lia. }
    intros k w Hin.
    assert (In k (dict_keys d)) as Hk.
    { apply Hed. apply in_map_iff. now exists (k, w). }
    apply in_map_iff in Hk. destruct Hk as [[k0 v] [E Hv]]. cbn in E. subst k0.
    destruct (I k v Hv) as [w' [Hw' Hvw]].
    rewrite (dict_lookup_in k w e Ne Hin) in Hw'. inversion Hw'; subst w'.
    exists v. split; [now apply dict_lookup_in|].
    exact (IH (k, v) Hv w (Wd k v Hv) (We k w Hin) Hvw).
Qed.

(** X10. On instances whose dictionaries have distinct keys, [__eq__]
    is symmetric: [a == b] and [b == a] give the same answer. *)
Theorem eq_symmetric (a b : Osversion) :
  wf a = true -> wf b = true -> __eq__ a b = __eq__ b a.
Proof.
  intros Ha Hb. apply Bool.eq_true_iff_eq. rewrite !eq_fields.
  split; intros H f; apply py_eq_sym; auto using wf_getter.
Qed.

Lemma eq_symmetric_witness :
  wf leap_15_2 = true /\ wf __init__ = true /\
  __eq__ leap_15_2 __init__ = __eq__ __init__ leap_15_2.
Proof.
  split; [reflexivity|]. split; [reflexivity|].
  apply (eq_symmetric leap_15_2 __init__); reflexivity.
Defined.

(** X11. [__eq__] is transitive. *)
Theorem eq_transitive (a b c : Osversion) :
  __eq__ a b = true -> __eq__ b c = true -> __eq__ a c = true.
Proof.
  rewrite !eq_fields. intros Hab Hbc f.
  exact (py_eq_trans _ _ _ (Hab f) (Hbc f)).
Qed.

Lemma eq_transitive_witness :
  __eq__ (store_signatures (PList [PBool true]) __init__)
         (store_signatures (PList [PInt 1]) __init__) = true /\
  __eq__ (store_signatures (PList [PInt 1]) __init__)
         (store_signatures (PList [PBool true]) __init__) = true /\
  __eq__ (store_signatures (PList [PBool true]) __init__)
         (store_signatures (PList [PBool true]) __init__) = true.
Proof.
  split; [reflexivity|]. split; [reflexivity|].
  apply (eq_transitive (store_signatures (PList [PBool true]) __init__)
           (store_signatures (PList [PInt 1]) __init__)); reflexivity.
Defined.

(** ** The class invariant *)

Lemma assign_all_keeps_typed data fs : forall self res self',
  typed self = true -> assign_all data fs self = (res, self') ->
  typed self' = true.
Proof.
  induction fs as [|h fs IH]; intros self res self' Hty Hrun.
  - inversion Hrun; subst. exact Hty.
  - cbn [assign_all] in Hrun. unfold bind in Hrun.
    destruct (setter h (decode_arg data h) self) as [[e|[]] s1] eqn:Hs.
    + inversion Hrun; subst. exact (setter_keeps_typed _ _ _ _ _ Hty Hs).
    + exact (IH _ _ _ (setter_keeps_typed _ _ _ _ _ Hty Hs) Hrun).
Qed.

Lemma run_call_keeps_typed c self :
  typed self = true -> typed (snd (run_call c self)) = true.
Proof.
  intros Hty. destruct (run_call c self) as [res self'] eqn:Hrun. cbn [snd].
  destruct c as [f v | f | data]; cbn [run_call] in Hrun.
  - exact (setter_keeps_typed _ _ _ _ _ Hty Hrun).
  - exact (deleter_keeps_typed _ _ _ _ Hty Hrun).
  - rewrite decode_assign_all in Hrun.
    exact (assign_all_keeps_typed _ _ _ _ _ Hty Hrun).
Qed.

(** X12. Starting from a constructed instance, no series of setter,
    deleter and [decode] calls, whether they return or raise, leaves an
    attribute holding anything but an object of the class its setter
    tests for. *)
Theorem reachable_instances_are_typed (cs : list method_call) :
  typed (after_calls cs __init__) = true.
Proof.
  assert (forall self, typed self = true -> typed (after_calls cs self) = true)
    as H; [|exact (H __init__ typed_init)].
  induction cs as [|c cs IH]; intros self Hty; [exact Hty|].
  cbn [after_calls]. apply IH. now apply run_call_keeps_typed.
Qed.

(** ** How the methods compose *)

Lemma store_store_same f v w self :
  store f w (store f v self) = store f w self.
Proof. destruct f, self; reflexivity. Qed.

Lemma store_store_comm f g v w self :
  f <> g -> store g w (store f v self) = store f v (store g w self).
Proof.
  intros Hne. apply getter_ext. intros h.
  destruct (field_eq_dec h g) as [->|Hg].
  - rewrite getter_store_same, getter_store_other by congruence.
    now rewrite getter_store_same.
  - rewrite (getter_store_other g h) by exact Hg.
    destruct (field_eq_dec h f) as [->|Hf].
    + now rewrite !getter_store_same.
    + now rewrite !getter_store_other by assumption.
Qed.

Lemma store_getter f self : store f (getter f self) self = self.
Proof. destruct f, self; reflexivity. Qed.

(** X13. Of two accepted assignments to the same property only the
    second is seen: setting [v] and then [w] is setting [w]. *)
Theorem setter_last_write_wins (f : field) (v w : pyval) (self : Osversion) :
  isinstance v (field_type f) = true ->
  isinstance w (field_type f) = true ->
  (setter f v ;; setter f w) self = setter f w self.
Proof.
  intros Hv Hw. unfold bind. rewrite (setter_spec f v), Hv.
  rewrite !setter_spec, Hw. now rewrite store_store_same.
Qed.

Lemma setter_last_write_wins_witness :
  isinstance (PStr "vmlinuz") (field_type F_kernel_file) = true /\
  isinstance (PStr "linux") (field_type F_kernel_file) = true /\
  (kernel_file_setter (PStr "vmlinuz") ;; kernel_file_setter (PStr "linux"))
    leap_15_2 =
  kernel_file_setter (PStr "linux") leap_15_2.
Proof.
  split; [reflexivity|]. split; [reflexivity|].
  apply (setter_last_write_wins F_kernel_file (PStr "vmlinuz") (PStr "linux")
           leap_15_2); reflexivity.
Defined.

(** X14. Accepted assignments to two different properties can be made
    in either order. *)
Theorem setters_commute (f g : field) (v w : pyval) (self : Osversion) :
  f <> g ->
  isinstance v (field_type f) = true ->
  isinstance w (field_type g) = true ->
  (setter f v ;; setter g w) self = (setter g w ;; setter f v) self.
Proof.
  intros Hne Hv Hw. unfold bind.
  rewrite (setter_spec f v self), Hv, (setter_spec g w self), Hw.
  rewrite !setter_spec, Hv, Hw. now rewrite store_store_comm.
Qed.

Lemma setters_commute_witness :
  F_kernel_file <> F_isolinux_ok /\
  isinstance (PStr "linux") (field_type F_kernel_file) = true /\
  isinstance (PBool false) (field_type F_isolinux_ok) = true /\
  (kernel_file_setter (PStr "linux") ;; isolinux_ok_setter (PBool false))
    leap_15_2 =
  (isolinux_ok_setter (PBool false) ;; kernel_file_setter (PStr "linux"))
    leap_15_2.
Proof.
  assert (F_kernel_file <> F_isolinux_ok) as Hne by discriminate.
  split; [exact Hne|]. split; [reflexivity|]. split; [reflexivity|].
  apply (setters_commute F_kernel_file F_isolinux_ok (PStr "linux")
           (PBool false) leap_15_2); [exact Hne | reflexivity | reflexivity].
Defined.

(** X15. Deleting all sixteen properties of any instance gives back
    the instance the constructor builds. *)
Theorem delete_all_is_init (self : Osversion) :
  delete_all decode_order self = (inr tt, __init__).
Proof. destruct self. reflexivity. Qed.

(** X16. Writing back what a getter returned is always accepted on a
    typed instance and changes nothing. *)
Theorem setter_of_getter (f : field) (self : Osversion) :
  typed self = true ->
  setter f (getter f self) self = (inr tt, self).
Proof.
  intros Hty. rewrite setter_spec, (typed_getter self f Hty).
  now rewrite store_getter.
Qed.

Lemma setter_of_getter_witness :
  typed leap_15_2 = true /\
  boot_loaders_setter (boot_loaders leap_15_2) leap_15_2 = (inr tt, leap_15_2).
Proof.
  split; [reflexivity|].
  apply (setter_of_getter F_boot_loaders leap_15_2). reflexivity.
Defined.

(** X17. A deleter is the setter called with the default of its
    property: it never raises, and after an accepted assignment it
    leaves what it would have left without it. *)
Theorem deleter_is_setter_of_default (f : field) (v : pyval)
    (self : Osversion) :
  deleter f self = setter f (field_default f) self /\
  (isinstance v (field_type f) = true ->
   (setter f v ;; deleter f) self = deleter f self).
Proof.
  split.
  - destruct f; reflexivity.
  - intros Hv. unfold bind. rewrite setter_spec, Hv.
    rewrite !deleter_spec. now rewrite store_store_same.
Qed.

Lemma deleter_is_setter_of_default_witness :
  isinstance (PBool true) (field_type F_isolinux_ok) = true /\
  (isolinux_ok_setter (PBool true) ;; isolinux_ok_deleter) leap_15_2 =
  isolinux_ok_deleter leap_15_2.
Proof.
  split; [reflexivity|].
  apply (proj2 (deleter_is_setter_of_default F_isolinux_ok (PBool true)
                  leap_15_2)).
  reflexivity.
Defined.

(** ** The enumerations *)

(** X18. No two members of [OsArchitectures], and no two members of
    [RepositoryBreeds], are declared with the same value: every name is
    a member of its own and none is an alias; in particular [amd64] and
    [x86_64] are different members. *)
Theorem enum_values_distinct :
  (forall a b : OsArchitectures,
     OsArchitectures_value a = OsArchitectures_value b -> a = b) /\
  (forall a b : RepositoryBreeds,
     RepositoryBreeds_value a = RepositoryBreeds_value b -> a = b) /\
  amd64 <> x86_64.
Proof.
  split; [|split].
  - intros a b; destruct a, b; cbn; intros E;
      solve [reflexivity | discriminate E].
  - intros a b; destruct a, b; cbn; intros E;
      solve [reflexivity | discriminate E].
  - discriminate.
Qed.

(** ** The menu helpers *)

Lemma dict_set_set {V : Type} (k : string) (v w : V) d :
  dict_set k v (dict_set k w d) = dict_set k v d.
Proof.
  induction d as [|[k0 v0] d IH]; cbn.
  - now rewrite String.eqb_refl.
  - destruct (String.eqb_spec k k0) as [->|Hne]; cbn.
    + now rewrite String.eqb_refl.
    + destruct (String.eqb_spec k k0); [contradiction|]. now rewrite IH.
Qed.

Lemma dict_set_absent {V : Type} (k : string) (v : V) d :
  dict_lookup k d = None -> dict_set k v d = (d ++ [(k, v)])%list.
Proof.
  induction d as [|[k0 v0] d IH]; cbn; [reflexivity|].
  destruct (String.eqb_spec k k0); [discriminate|].
  intros H. now rewrite (IH H).
Qed.

(** X19. Given a list of values and at least one question,
    [update_choices] returns normally; the first question then has the
    values followed by ["Go Back"] under ["choices"] (the key being
    added at the end when the question had none), its other entries and
    the other questions are as before, and a non-empty list passed by
    the caller has itself grown by ["Go Back"]. *)
Theorem update_choices_fills_menu (q : pydict) (rest : list pydict)
    (xs : list pyval) :
  exists q' passed,
    update_choices (q :: rest) (ChoiceList xs) =
      (inr tt, (q' :: rest, passed)) /\
    dict_lookup "choices" q' = Some (PList (xs ++ [PStr "Go Back"])) /\
    (forall k, k <> "choices" -> dict_lookup k q' = dict_lookup k q) /\
    (dict_lookup "choices" q = None ->
     q' = (q ++ [("choices", PList (xs ++ [PStr "Go Back"]))])%list) /\
    passed = match xs with
             | [] => ChoiceList []
             | _ :: _ => ChoiceList (xs ++ [PStr "Go Back"])
             end.
Proof.
  exists (dict_set "choices" (PList (xs ++ [PStr "Go Back"])) q).
  exists (match xs with
          | [] => ChoiceList []
          | _ :: _ => ChoiceList (xs ++ [PStr "Go Back"])
          end).
  split; [destruct xs; reflexivity|].
  split; [apply dict_lookup_set_same|].
  split; [intros k Hk; now apply dict_lookup_set_other|].
  split; [apply dict_set_absent | reflexivity].
Qed.

(** X20. [update_choices] replaces the choices of a question, it does
    not add to them: after a call with one list and a call with a
    second list the questions are what a single call with the second
    list leaves. *)
Theorem update_choices_replaces (question : list pydict)
    (xs ys : list pyval) :
  fst (snd (update_choices
              (fst (snd (update_choices question (ChoiceList xs))))
              (ChoiceList ys))) =
  fst (snd (update_choices question (ChoiceList ys))).
Proof.
  destruct question as [|q rest].
  - destruct xs, ys; reflexivity.
  - assert (forall zs, fst (snd (update_choices (q :: rest) (ChoiceList zs))) =
                       dict_set "choices" (PList (zs ++ [PStr "Go Back"])) q
                         :: rest) as Hone by (intros zs; destruct zs; reflexivity).
    rewrite (Hone xs).
    assert (forall q0 zs,
              fst (snd (update_choices (q0 :: rest) (ChoiceList zs))) =
              dict_set "choices" (PList (zs ++ [PStr "Go Back"])) q0 :: rest)
      as Hany by (intros q0 zs; destruct zs; reflexivity).
    rewrite !Hany. now rewrite dict_set_set.
Qed.

(** X21. [update_choices] raises in two cases only: [IndexError] when
    there is no question, [AttributeError] when the values are a
    non-empty keys view.  The keys view case leaves everything as it
    was; with no question, a non-empty list passed by the caller has
    nevertheless grown by ["Go Back"]. *)
Theorem update_choices_raises (question : list pydict) (values : choices) :
  ((exists e st, update_choices question values = (inl e, st)) <->
   question = [] \/ exists k ks, values = ChoiceKeys (k :: ks)) /\
  (forall k ks,
     update_choices question (ChoiceKeys (k :: ks)) =
     (inl AttributeError, (question, ChoiceKeys (k :: ks)))) /\
  (forall x xs,
     update_choices [] (ChoiceList (x :: xs)) =
     (inl IndexError, ([], ChoiceList (x :: xs ++ [PStr "Go Back"])))).
Proof.
  split; [|split; reflexivity].
  split.
  - intros [e [st H]].
    destruct question as [|q rest]; [now left|]. right.
    destruct values as [xs|[|k ks]].
    + destruct xs; discriminate H.
    + discriminate H.
    + now exists k, ks.
  - intros [->|[k [ks ->]]].
    + destruct values as [[|x xs]|[|k ks]]; eexists; eexists; reflexivity.
    + eexists; eexists; reflexivity.
Qed.

Section CatalogueFacts.
Context {Osbreed : Type}.
Variable name : Osbreed -> pyval.
Variable osversions_keys : Osbreed -> list string.
Variable breed_eq : pyval -> Osbreed -> bool.

Lemma get_os_breed_names_map (osbreeds : list Osbreed) :
  get_os_breed_names name osbreeds = map name osbreeds.
Proof.
  unfold get_os_breed_names.
  assert (forall vs names,
            (fix loop (vs : list Osbreed) (names : list pyval) : list pyval :=
               match vs with
               | [] => names
               | v :: vs' => loop vs' (names ++ [name v])%list
               end) vs names = (names ++ map name vs)%list) as H.
  { induction vs as [|v vs IH]; intros names; cbn.
    - now rewrite app_nil_r.
    - rewrite IH, <- app_assoc. reflexivity. }
  apply (H osbreeds []).
Qed.

Lemma list_getitem_first {A : Type} (x : A) xs :
  list_getitem (x :: xs) 0 = Some x.
Proof. reflexivity. Qed.

Lemma list_getitem_last {A : Type} (x : A) xs :
  list_getitem (x :: xs) (Z.of_nat (List.length (x :: xs)) - 1) =
  Some (last xs x).
Proof.
  unfold list_getitem.
  replace (Z.of_nat (List.length (x :: xs)) - 1)%Z
    with (Z.of_nat (List.length xs)) by (cbn [List.length]; lia).
  destruct (Z.leb_spec 0 (Z.of_nat (List.length xs))) as [_|H]; [|lia].
  rewrite Nat2Z.id. clear.
  assert (forall (l : list A) a b, l <> [] -> last l a = last l b) as Hdef.
  { induction l as [|z l IH]; intros a b Hl; [congruence|].
    destruct l as [|z' l]; [reflexivity|].
    change (last (z' :: l) a = last (z' :: l) b). now apply IH. }
  revert x. induction xs as [|y ys IH]; intros x; [reflexivity|].
  cbn [List.length nth_error]. rewrite IH.
  destruct ys as [|z zs]; [reflexivity|].
  change (Some (last (z :: zs) y) = Some (last (z :: zs) x)).
  f_equal. now apply Hdef.
Qed.
End CatalogueFacts.

Lemma version_names_loop_result {Osbreed : Type}
    (osversions_keys : Osbreed -> list string)
    (breed_eq : pyval -> Osbreed -> bool) osbreeds breed indices :
  forall printed c printed',
    version_names_loop osversions_keys breed_eq osbreeds breed indices printed =
      (inr c, printed') ->
    c = ChoiceList [] \/ exists ks, c = ChoiceKeys ks.
Proof.
  induction indices as [|i indices IH]; intros printed c printed' H; cbn in H.
  - inversion H. now left.
  - destruct (list_getitem osbreeds i) as [b|]; [|discriminate H].
    destruct (breed_eq breed b).
    + inversion H. right. now eexists.
    + exact (IH _ _ _ H).
Qed.

(** X22. [get_os_version_names] looks at the first and at the last
    breed of the catalogue and at no other.  On an empty catalogue it
    raises [IndexError].  Otherwise it returns: the version names of
    the first breed if that one equals the chosen entry; else, after
    one printed line, those of the last breed if that one does; else,
    after two printed lines, an empty list.  The breeds in between do
    not change the result. *)
Theorem get_os_version_names_first_last {Osbreed : Type}
    (osversions_keys : Osbreed -> list string)
    (breed_eq : pyval -> Osbreed -> bool) (breed : pyval) :
  get_os_version_names osversions_keys breed_eq [] breed =
    (inl IndexError, []) /\
  (forall b bs,
     get_os_version_names osversions_keys breed_eq (b :: bs) breed =
     if breed_eq breed b
     then (inr (ChoiceKeys (osversions_keys b)), [])
     else if breed_eq breed (last bs b)
     then (inr (ChoiceKeys (osversions_keys (last bs b))),
           ["Operating System Breed not found. Doing nothing."])
     else (inr (ChoiceList []),
           ["Operating System Breed not found. Doing nothing.";
            "Operating System Breed not found. Doing nothing."])) /\
  (forall first middle final,
     get_os_version_names osversions_keys breed_eq
       (first :: middle ++ [final]) breed =
     get_os_version_names osversions_keys breed_eq [first; final] breed).
Proof.
  assert (forall b bs,
     get_os_version_names osversions_keys breed_eq (b :: bs) breed =
     if breed_eq breed b
     then (inr (ChoiceKeys (osversions_keys b)), [])
     else if breed_eq breed (last bs b)
     then (inr (ChoiceKeys (osversions_keys (last bs b))),
           ["Operating System Breed not found. Doing nothing."])
     else (inr (ChoiceList []),
           ["Operating System Breed not found. Doing nothing.";
            "Operating System Breed not found. Doing nothing."])) as Hcons.
  { intros b bs. unfold get_os_version_names.
    cbn [version_names_loop]. rewrite list_getitem_first.
    destruct (breed_eq breed b); [reflexivity|].
    rewrite list_getitem_last.
    destruct (breed_eq breed (last bs b)); reflexivity. }
  split; [reflexivity|]. split; [exact Hcons|].
  intros first middle final. rewrite !Hcons. rewrite last_last. reflexivity.
Qed.

(** X23. Whatever [get_os_version_names] returns, the version menu
    filled from it never lists a version: if the chosen breed was found
    and has a version, [update_choices] raises [AttributeError] on the
    keys view and changes nothing; in every other case the choices of
    the first question become ["Go Back"] alone. *)
Theorem version_menu_choices {Osbreed : Type}
    (osversions_keys : Osbreed -> list string)
    (breed_eq : pyval -> Osbreed -> bool) (osbreeds : list Osbreed)
    (breed : pyval) (question : list pydict) (c : choices)
    (printed : list string) :
  get_os_version_names osversions_keys breed_eq osbreeds breed =
    (inr c, printed) ->
  (choices_len c <> 0 /\
   update_choices question c = (inl AttributeError, (question, c))) \/
  (choices_len c = 0 /\
   forall q rest, question = q :: rest ->
     update_choices question c =
     (inr tt, (dict_set "choices" (PList [PStr "Go Back"]) q :: rest, c))).
Proof.
  intros H. unfold get_os_version_names in H.
  destruct (version_names_loop_result _ _ _ _ _ _ _ _ H) as [->|[ks ->]].
  - right. split; [reflexivity|]. intros q rest ->. reflexivity.
  - destruct ks as [|k ks].
    + right. split; [reflexivity|]. intros q rest ->. reflexivity.
    + left. split; [discriminate | reflexivity].
Qed.

Lemma version_menu_choices_witness :
  get_os_version_names (fun b : string * list string => snd b)
    (fun v b => py_eq v (PStr (fst b)))
    [("suse", ["15.2"; "15.3"]); ("debian", ["10"])] (PStr "suse") =
    (inr (ChoiceKeys ["15.2"; "15.3"]), []) /\
  ((choices_len (ChoiceKeys ["15.2"; "15.3"]) <> 0 /\
    update_choices [[("type", PStr "list"); ("choices", PList [])]]
      (ChoiceKeys ["15.2"; "15.3"]) =
    (inl AttributeError,
     ([[("type", PStr "list"); ("choices", PList [])]],
      ChoiceKeys ["15.2"; "15.3"]))) \/
   (choices_len (ChoiceKeys ["15.2"; "15.3"]) = 0 /\
    forall q rest,
      [[("type", PStr "list"); ("choices", PList [])]] = q :: rest ->
      update_choices [[("type", PStr "list"); ("choices", PList [])]]
        (ChoiceKeys ["15.2"; "15.3"]) =
      (inr tt,
       (dict_set "choices" (PList [PStr "Go Back"]) q :: rest,
        ChoiceKeys ["15.2"; "15.3"])))).
Proof.
  split; [reflexivity|].
  apply (version_menu_choices (fun b : string * list string => snd b)
           (fun v b => py_eq v (PStr (fst b)))
           [("suse", ["15.2"; "15.3"]); ("debian", ["10"])] (PStr "suse")
           [[("type", PStr "list"); ("choices", PList [])]]
           (ChoiceKeys ["15.2"; "15.3"]) []).
  reflexivity.
Defined.

(** X24. [get_os_breed_names] lists the names of the breeds in the
    order of the catalogue, and a menu filled from it offers these
    names followed by ["Go Back"]. *)
Theorem breed_menu_choices {Osbreed : Type} (name : Osbreed -> pyval)
    (osbreeds : list Osbreed) (q : pydict) (rest : list pydict) :
  get_os_breed_names name osbreeds = map name osbreeds /\
  exists q' passed,
    update_choices (q :: rest) (ChoiceList (get_os_breed_names name osbreeds)) =
      (inr tt, (q' :: rest, passed)) /\
    dict_lookup "choices" q' =
      Some (PList (map name osbreeds ++ [PStr "Go Back"])).
Proof.
  split; [apply get_os_breed_names_map|].
  rewrite get_os_breed_names_map.
  exists (dict_set "choices" (PList (map name osbreeds ++ [PStr "Go Back"])) q).
  exists (match map name osbreeds with
          | [] => ChoiceList []
          | _ :: _ => ChoiceList (map name osbreeds ++ [PStr "Go Back"])
          end).
  split.
  - destruct (map name osbreeds); reflexivity.
  - apply dict_lookup_set_same.
Qed.

(** ** The order of a fragment's items *)

(** X25. [decode] does not depend on the order in which the items of
    the fragment were inserted: two fragments with the same items give
    the same outcome and leave the same instance. *)
Theorem decode_ignores_item_order (data data' : pydict) (self : Osversion) :
  NoDup (dict_keys data) ->
  Permutation data data' ->
  decode data self = decode data' self.
Proof.
  intros Hn Hp. rewrite !decode_assign_all.
  assert (forall f, decode_arg data f = decode_arg data' f) as Harg.
  { intros f. unfold decode_arg, dict_get.
    now rewrite (dict_lookup_perm (field_name f) data data' Hn Hp). }
  revert self. induction decode_order as [|f fs IH]; intros self.
  - reflexivity.
  - cbn [assign_all]. unfold bind. rewrite Harg.
    destruct (setter f (decode_arg data' f) self) as [[e|[]] self1].
    + reflexivity.
    + apply IH.
Qed.

Lemma decode_ignores_item_order_witness :
  NoDup (dict_keys [("kernel_file", PStr "linux"); ("isolinux_ok", PInt 0)]) /\
  Permutation [("kernel_file", PStr "linux"); ("isolinux_ok", PInt 0)]
              [("isolinux_ok", PInt 0); ("kernel_file", PStr "linux")] /\
  decode [("kernel_file", PStr "linux"); ("isolinux_ok", PInt 0)] leap_15_2 =
  decode [("isolinux_ok", PInt 0); ("kernel_file", PStr "linux")] leap_15_2.
Proof.
  assert (NoDup (dict_keys [("kernel_file", PStr "linux");
                            ("isolinux_ok", PInt 0)])) as Hn
    by (apply distinct_NoDup; reflexivity).
  split; [exact Hn|]. split; [apply perm_swap|].
  apply (decode_ignores_item_order
           [("kernel_file", PStr "linux"); ("isolinux_ok", PInt 0)]
           [("isolinux_ok", PInt 0); ("kernel_file", PStr "linux")] leap_15_2);
    [exact Hn | apply perm_swap].
Defined.
